(** * DeepSeek checkpoint importer: state-dict disambiguation and mapping table

    A shallow embedding of [nemo/collections/llm/gpt/model/deepseek.py]:
    the configuration dataclasses, the importer's [_modify_source_state]
    pass over the Hugging Face state dict, the mapping table and transform
    list of [convert_state], and the [config] property that derives the
    per-layer classification [moe_layer_freq]. *)

From Stdlib Require Import ZArith Ascii String DecimalString DecimalNat.
From stdpp Require Import gmap strings list fin_maps.

Local Open Scope string_scope.

(** ** Python strings *)

Module PyStr.

(** [str(n)] for a non-negative [int], as an f-string renders it. *)
Definition str_of_nat (n : nat) : string :=
  NilEmpty.string_of_uint (Nat.to_uint n).

Definition is_digit (c : ascii) : bool :=
  match Ascii.is_nat c with Some _ => true | None => false end.

Fixpoint all_digits (s : string) : bool :=
  match s with
  | EmptyString => true
  | String c s' => is_digit c && all_digits s'
  end.

(** [int(s)] on a non-empty string of decimal digits, leading zeros
    allowed; [None] on anything else. *)
Definition nat_of_str (s : string) : option nat :=
  match s with
  | EmptyString => None
  | _ => Nat.of_uint <$> NilEmpty.uint_of_string s
  end.

(** [s.startswith(p)], returning what follows the prefix. *)
Fixpoint strip_prefix (p s : string) : option string :=
  match p, s with
  | EmptyString, _ => Some s
  | String a p', String b s' =>
      if Ascii.eqb a b then strip_prefix p' s' else None
  | String _ _, EmptyString => None
  end.

(** [s.split(".")] *)
Fixpoint split_dots (s : string) : list string :=
  match s with
  | EmptyString => [EmptyString]
  | String c s' =>
      if Ascii.eqb c "." then EmptyString :: split_dots s'
      else match split_dots s' with
           | seg :: segs => String c seg :: segs
           | [] => [String c EmptyString]
           end
  end.

(** [".".join(segs)] *)
Fixpoint join_dots (segs : list string) : string :=
  match segs with
  | [] => EmptyString
  | [seg] => seg
  | seg :: rest => seg +:+ "." +:+ join_dots rest
  end.

Fixpoint dot_free (s : string) : bool :=
  match s with
  | EmptyString => true
  | String c s' => negb (Ascii.eqb c ".") && dot_free s'
  end.

End PyStr.

(** ** Parameter names touched by the disambiguation pass *)

(** f"model.layers.{layer_i}.post_attention_layernorm.weight" *)
Definition post_attention_key (layer_i : nat) : string :=
  "model.layers." +:+ PyStr.str_of_nat layer_i +:+ ".post_attention_layernorm.weight".

(** f"model.layers.{layer_i}.dense-post_attention_layernorm.weight" *)
Definition dense_post_attention_key (layer_i : nat) : string :=
  "model.layers." +:+ PyStr.str_of_nat layer_i +:+ ".dense-post_attention_layernorm.weight".

(** ** State dicts and the errors of dict operations *)

Inductive PyError : Type :=
  | KeyError (key : string)
  | ValueError (msg : string)
  | AssertionError (msg : string).

Definition result (A : Type) : Type := PyError + A.

Definition ok {A : Type} (a : A) : result A := inr a.
Definition raise {A : Type} (e : PyError) : result A := inl e.

(** Exceptions propagate: the rest of the computation is skipped. *)
#[global] Instance result_bind : MBind result := fun A B k r =>
  match r with
  | inl e => inl e
  | inr a => k a
  end.

(** [_ModelState] only wraps the dict it is given; [state_dict()] hands
    the same dict back. *)
Record _ModelState (Tensor : Type) : Type := Build_ModelState
  { state_dict : gmap string Tensor }.
Arguments Build_ModelState {Tensor} _.
Arguments state_dict {Tensor} _.

Section StateDict.
Context {Tensor : Type}.

(** [d.pop(key)] without a default. *)
Definition dict_pop (key : string) (d : gmap string Tensor)
  : result (Tensor * gmap string Tensor) :=
  match d !! key with
  | Some v => ok (v, delete key d)
  | None => raise (KeyError key)
  end.

(** [list(d.values())]; its order is not specified here, so it is
    compared up to permutation. *)
Definition dict_values (d : gmap string Tensor) : list Tensor :=
  (map_to_list d).*2.

(** [enumerate(xs)] *)
Definition enumerate {A : Type} (xs : list A) : list (nat * A) :=
  zip (seq 0 (length xs)) xs.

(** One iteration of the loop body of [_modify_source_state]. *)
Definition modify_layer (layer_i : nat) (use_moe : Z)
    (d : gmap string Tensor) : result (gmap string Tensor) :=
  if (use_moe =? 0)%Z then
    '(weight, d') ← dict_pop (post_attention_key layer_i) d;
    ok (<[dense_post_attention_key layer_i := weight]> d')
  else ok d.

(** The [for] loop: the dict is threaded through the iterations, and
    the first exception ends the run. *)
Fixpoint modify_layers (items : list (nat * Z)) (d : gmap string Tensor)
  : result (gmap string Tensor) :=
  match items with
  | [] => ok d
  | (layer_i, use_moe) :: rest =>
      d' ← modify_layer layer_i use_moe d;
      modify_layers rest d'
  end.

(** [HFDeepSeekImporter._modify_source_state], with
    [self.config.moe_layer_freq] and [source.state_dict()] as inputs. *)
Definition _modify_source_state (moe_layer_freq : list Z)
    (source : gmap string Tensor) : result (_ModelState Tensor) :=
  d ← modify_layers (enumerate moe_layer_freq) source;
  ok (Build_ModelState d).

End StateDict.


(** ** Python lists *)

(** [xs * n]: a non-positive count gives the empty list. *)
Definition list_mul {A : Type} (xs : list A) (n : Z) : list A :=
  concat (replicate (Z.to_nat n) xs).

(** [d.update(items)]: later items overwrite earlier ones. *)
Definition dict_update {V : Type} (d : gmap string V)
    (items : list (string * V)) : gmap string V :=
  foldl (fun acc kv => <[kv.1 := kv.2]> acc) d items.

(** A dict display [{k1: v1, k2: v2, ...}]. *)
Definition dict_of_items {V : Type} (items : list (string * V)) : gmap string V :=
  dict_update ∅ items.

(** ** Configuration dataclasses *)

(** The fields of [DeepSeekConfig] that this file reads or assigns.
    [moe_layer_freq] is in its list form, the one the defaults and the
    importer build.  [moe_router_enable_expert_bias] is [None] when the
    object has no such attribute, which is what [hasattr] tests. *)
Record DeepSeekConfig : Type := Build_DeepSeekConfig
  { num_layers : Z;
    moe_layer_freq : list Z;
    moe_router_topk_limited_devices : option Z;
    expert_model_parallel_size : Z;
    moe_router_score_function : string;
    moe_router_enable_expert_bias : option bool;
    make_vocab_size_divisible_by : Z }.

Definition set_moe_router_topk_limited_devices (v : option Z)
    (self : DeepSeekConfig) : DeepSeekConfig :=
  {| num_layers := num_layers self;
     moe_layer_freq := moe_layer_freq self;
     moe_router_topk_limited_devices := v;
     expert_model_parallel_size := expert_model_parallel_size self;
     moe_router_score_function := moe_router_score_function self;
     moe_router_enable_expert_bias := moe_router_enable_expert_bias self;
     make_vocab_size_divisible_by := make_vocab_size_divisible_by self |}.

(** The statements of [DeepSeekConfig.__post_init__] that precede the
    call to the parent class. *)
Definition clamp_topk_limited_devices (self : DeepSeekConfig) : DeepSeekConfig :=
  match moe_router_topk_limited_devices self with
  | Some limited =>
      set_moe_router_topk_limited_devices
        (Some (Z.min limited (expert_model_parallel_size self))) self
  | None => self
  end.

(** [DeepSeekConfig.__post_init__].  [super_post_init] is the parent
    classes' [__post_init__] (Megatron's [MLATransformerConfig]), which is
    library code: it may raise, and otherwise returns the object as it
    leaves it. *)
Definition __post_init__
    (super_post_init : DeepSeekConfig -> result DeepSeekConfig)
    (self : DeepSeekConfig) : result DeepSeekConfig :=
  super_post_init (clamp_topk_limited_devices self).

(** The class-level defaults of [DeepSeekV2Config]; [base] supplies the
    fields inherited unchanged. *)
Definition DeepSeekV2Config (base : DeepSeekConfig) : DeepSeekConfig :=
  {| num_layers := 60;
     moe_layer_freq := [0%Z] ++ list_mul [1%Z] 59;
     moe_router_topk_limited_devices := Some 3%Z;
     expert_model_parallel_size := expert_model_parallel_size base;
     moe_router_score_function := "softmax";
     moe_router_enable_expert_bias := moe_router_enable_expert_bias base;
     make_vocab_size_divisible_by := 3200 |}.

(** The class-level defaults of [DeepSeekV3Config]. *)
Definition DeepSeekV3Config (base : DeepSeekConfig) : DeepSeekConfig :=
  {| num_layers := 61;
     moe_layer_freq := list_mul [0%Z] 3 ++ list_mul [1%Z] 58;
     moe_router_topk_limited_devices := Some 4%Z;
     expert_model_parallel_size := expert_model_parallel_size base;
     moe_router_score_function := "sigmoid";
     moe_router_enable_expert_bias := Some true;
     make_vocab_size_divisible_by := 1280 |}.

(** ** The importer's [config] property *)

(** The attributes of the Hugging Face config that [config] reads and
    that reach the fields above. *)
Record HFConfig : Type := Build_HFConfig
  { num_hidden_layers : Z;
    first_k_dense_replace : Z;
    scoring_func : string;
    topk_group : option Z }.

(** The [moe_layer_freq] argument that [config] passes to
    [DeepSeekConfig]. *)
Definition config_moe_layer_freq (source : HFConfig) : list Z :=
  let n_moe_layers := (num_hidden_layers source - first_k_dense_replace source)%Z in
  list_mul [0%Z] (first_k_dense_replace source) ++ list_mul [1%Z] n_moe_layers.

(** [HFDeepSeekImporter.config].  [base] carries the values of the fields
    that the call leaves to the parent classes' defaults. *)
Definition config
    (super_post_init : DeepSeekConfig -> result DeepSeekConfig)
    (base : DeepSeekConfig) (source : HFConfig) : result DeepSeekConfig :=
  let is_v3 := String.eqb (scoring_func source) "sigmoid" in
  __post_init__ super_post_init
    {| num_layers := num_hidden_layers source;
       moe_layer_freq := config_moe_layer_freq source;
       moe_router_topk_limited_devices := topk_group source;
       expert_model_parallel_size := expert_model_parallel_size base;
       moe_router_score_function :=
         if is_v3 then "sigmoid" else moe_router_score_function base;
       moe_router_enable_expert_bias :=
         if is_v3 then Some true else moe_router_enable_expert_bias base;
       make_vocab_size_divisible_by := if is_v3 then 1280 else 3200 |}.

(** ** Key patterns *)

Module Pattern.

(** Modelled from the spec: the Key Pattern Matcher of
    [nemo.lightning.io.state], which is not among the sources.  A
    pattern is compiled into one token per dotted segment; literal
    segments match byte for byte, a wildcard captures a non-negative
    integer, captures are collected left to right, and [substitute]
    fills the wildcards of a pattern of the same arity in that order.
    The marker may close a segment after a literal prefix, as in
    [linear_fc2.weight*] of the table below: such a segment is that
    prefix followed by the integer.  The spec speaks of whole-segment
    wildcards only; read that way the per-expert rules of the table would
    pair a source of two wildcards with a target of one. *)
Inductive token : Type :=
  | Lit (segment : string)
  | Wild (prefix : string).

(** Modelled from the spec: recognising a wildcard segment.  [Some p]
    when the segment is [p] followed by the wildcard marker. *)
Fixpoint wildcard_prefix (segment : string) : option string :=
  match segment with
  | EmptyString => None
  | String c EmptyString => if Ascii.eqb c "*" then Some EmptyString else None
  | String c rest => String c <$> wildcard_prefix rest
  end.

(** Modelled from the spec: the token of one pattern segment. *)
Definition classify (segment : string) : token :=
  match wildcard_prefix segment with
  | Some p => Wild p
  | None => Lit segment
  end.

(** Modelled from the spec: compiling a pattern into its sequence of
    literal-segment and wildcard-segment tokens. *)
Definition compile (pattern : string) : list token :=
  classify <$> PyStr.split_dots pattern.

Definition is_wild (t : token) : bool :=
  match t with Wild _ => true | Lit _ => false end.

(** Modelled from the spec: the arity of a pattern, its number of
    wildcard segments. *)
Definition arity (tokens : list token) : nat :=
  length (filter (fun t => is_wild t = true) tokens).

(** Modelled from the spec: matching segment by segment.  The segment
    counts must agree, literals must be equal, and what a wildcard
    captures must parse as a non-negative integer; [None] is no-match. *)
Fixpoint match_segments (tokens : list token) (segments : list string)
  : option (list nat) :=
  match tokens, segments with
  | [], [] => Some []
  | Lit l :: tokens', seg :: segments' =>
      if String.eqb l seg then match_segments tokens' segments' else None
  | Wild p :: tokens', seg :: segments' =>
      digits ← PyStr.strip_prefix p seg;
      n ← PyStr.nat_of_str digits;
      binding ← match_segments tokens' segments';
      Some (n :: binding)
  | _, _ => None
  end.

(** Modelled from the spec: [match(pattern, name)], a binding or
    no-match. *)
Definition matches (pattern name : string) : option (list nat) :=
  match_segments (compile pattern) (PyStr.split_dots name).

(** Modelled from the spec: filling the wildcard positions with the
    integers of the binding, in order.  [None] is the arity mismatch
    between pattern and binding. *)
Fixpoint fill (tokens : list token) (binding : list nat)
  : option (list string) :=
  match tokens with
  | [] => match binding with [] => Some [] | _ :: _ => None end
  | Lit l :: tokens' => (l ::.) <$> fill tokens' binding
  | Wild p :: tokens' =>
      match binding with
      | n :: binding' =>
          ((p +:+ PyStr.str_of_nat n) ::.) <$> fill tokens' binding'
      | [] => None
      end
  end.

(** Modelled from the spec: [substitute(pattern, binding)]. *)
Definition substitute (pattern : string) (binding : list nat) : option string :=
  PyStr.join_dots <$> fill (compile pattern) binding.

(** Modelled from the spec: the [rename] of a 1:1 entry, the target name
    it gives a concrete source name. *)
Definition rename (source_pattern target_pattern name : string) : option string :=
  binding ← matches source_pattern name;
  substitute target_pattern binding.

(** A decidable check used in the proofs below: two compiled patterns
    that no name can match at once, because they differ in segment count
    or in a literal at the same position. *)
Fixpoint clash (ts1 ts2 : list token) : bool :=
  match ts1, ts2 with
  | [], [] => false
  | Lit a :: ts1', Lit b :: ts2' => negb (String.eqb a b) || clash ts1' ts2'
  | _ :: ts1', _ :: ts2' => clash ts1' ts2'
  | _, _ => true
  end.

Definition token_dot_free (t : token) : bool :=
  match t with
  | Lit l => PyStr.dot_free l
  | Wild p => PyStr.dot_free p
  end.

End Pattern.

(** ** Transforms *)

Section Transforms.
Context {Tensor : Type}.

(** Modelled from the spec: [io.state_transform] of
    [nemo.lightning.io.state].  A transform names its source patterns
    in declared order, one target pattern, and the function applied. *)
Record StateTransform : Type := state_transform
  { source_key : list string;
    target_key : string;
    fn : list Tensor -> option Tensor }.

(** Modelled from the spec: one application of a transform to one
    binding.  The source names are the source patterns filled with the
    binding, the tensors are fetched and handed to [fn] in the declared
    order, and the result goes under the filled target pattern. *)
Definition apply_transform (t : StateTransform) (binding : list nat)
    (source : gmap string Tensor) : option (string * Tensor) :=
  names ← mapM (fun p => Pattern.substitute p binding) (source_key t);
  tensors ← mapM (fun name => source !! name) names;
  out ← fn t tensors;
  target ← Pattern.substitute (target_key t) binding;
  Some (target, out).

End Transforms.

(** Modelled from the spec: [TransformFns.merge_fc1], the [merge_concat]
    of two tensors along axis 0, gate first.  A tensor is the list of its
    entries along that axis, which is all there is to a tensor of shape
    (d,); shapes off axis 0, and the ShapeMismatch of tensors that differ
    there, are not modelled. *)
Definition merge_fc1 {A : Type} (tensors : list (list A)) : option (list A) :=
  match tensors with
  | [gate; up] => Some (gate ++ up)%list
  | _ => None
  end.

(** ** [convert_state] *)

(** The dict display bound to [mapping], in source order. *)
Definition mapping_items : list (string * string) :=
  [ ("model.embed_tokens.weight", "embedding.word_embeddings.weight");
    ("model.layers.*.input_layernorm.weight", "decoder.layers.*.input_layernorm.weight");
    ("model.layers.*.self_attn.o_proj.weight", "decoder.layers.*.self_attention.linear_proj.weight");
    ("model.layers.*.self_attn.q_a_proj.weight", "decoder.layers.*.self_attention.linear_q_down_proj.weight");
    ("model.layers.*.self_attn.q_b_proj.weight", "decoder.layers.*.self_attention.linear_q_up_proj.weight");
    ("model.layers.*.self_attn.kv_a_proj_with_mqa.weight", "decoder.layers.*.self_attention.linear_kv_down_proj.weight");
    ("model.layers.*.self_attn.kv_b_proj.weight", "decoder.layers.*.self_attention.linear_kv_up_proj.weight");
    ("model.layers.*.self_attn.q_a_layernorm.weight", "decoder.layers.*.self_attention.q_layernorm.weight");
    ("model.layers.*.self_attn.kv_a_layernorm.weight", "decoder.layers.*.self_attention.kv_layernorm.weight");
    ("model.layers.*.dense-post_attention_layernorm.weight", "decoder.layers.*.mlp.linear_fc1.layer_norm_weight");
    ("model.layers.*.post_attention_layernorm.weight", "decoder.layers.*.pre_mlp_layernorm.weight");
    ("model.layers.*.mlp.down_proj.weight", "decoder.layers.*.mlp.linear_fc2.weight");
    ("model.layers.*.mlp.gate.weight", "decoder.layers.*.mlp.router.weight");
    ("model.layers.*.mlp.experts.*.down_proj.weight", "decoder.layers.*.mlp.experts.linear_fc2.weight*");
    ("model.layers.*.mlp.shared_experts.down_proj.weight", "decoder.layers.*.mlp.shared_experts.linear_fc2.weight");
    ("model.norm.weight", "decoder.final_layernorm.weight");
    ("lm_head.weight", "output_layer.weight") ].

Definition expert_bias_items : list (string * string) :=
  [ ("model.layers.*.mlp.gate.e_score_correction_bias", "decoder.layers.*.mlp.router.expert_bias") ].

(** [hasattr(self.config, "moe_router_enable_expert_bias") and
    self.config.moe_router_enable_expert_bias] *)
Definition expert_bias_enabled (cfg : DeepSeekConfig) : bool :=
  match moe_router_enable_expert_bias cfg with
  | Some enabled => enabled
  | None => false
  end.

(** The [mapping] that [convert_state] hands to [io.apply_transforms]. *)
Definition convert_state_mapping (cfg : DeepSeekConfig) : gmap string string :=
  let mapping := dict_of_items mapping_items in
  if expert_bias_enabled cfg
  then dict_update mapping expert_bias_items
  else mapping.

(** The [transforms] that [convert_state] hands to [io.apply_transforms]. *)
Definition convert_state_transforms {A : Type} : list (@StateTransform (list A)) :=
  [ state_transform
      ["model.layers.*.mlp.gate_proj.weight"; "model.layers.*.mlp.up_proj.weight"]
      "decoder.layers.*.mlp.linear_fc1.weight"
      merge_fc1;
    state_transform
      ["model.layers.*.mlp.experts.*.gate_proj.weight";
       "model.layers.*.mlp.experts.*.up_proj.weight"]
      "decoder.layers.*.mlp.experts.linear_fc1.weight*"
      merge_fc1;
    state_transform
      ["model.layers.*.mlp.shared_experts.gate_proj.weight";
       "model.layers.*.mlp.shared_experts.up_proj.weight"]
      "decoder.layers.*.mlp.shared_experts.linear_fc1.weight"
      merge_fc1 ].

(** ** Checks over the whole table *)

(** Every entry the table can hold, the optional one last. *)
Definition all_mapping_items : list (string * string) :=
  (mapping_items ++ expert_bias_items)%list.

Definition same_arity (source_pattern target_pattern : string) : bool :=
  Nat.eqb (Pattern.arity (Pattern.compile source_pattern))
          (Pattern.arity (Pattern.compile target_pattern)).

(** Two entries are the same entry, or clash both in their source and in
    their target pattern. *)
Definition entries_clash (e1 e2 : string * string) : bool :=
  String.eqb e1.1 e2.1
  || (Pattern.clash (Pattern.compile e1.1) (Pattern.compile e2.1)
      && Pattern.clash (Pattern.compile e1.2) (Pattern.compile e2.2)).

Definition pairwise_clash (items : list (string * string)) : bool :=
  forallb (fun e1 => forallb (entries_clash e1) items) items.

Definition transform_same_arity {Tensor : Type} (t : @StateTransform Tensor) : bool :=
  forallb (fun p => same_arity p (target_key t)) (source_key t).

(** The transform with its source patterns declared in the opposite
    order. *)
Definition reverse_sources {Tensor : Type} (t : @StateTransform Tensor)
  : @StateTransform Tensor :=
  state_transform (reverse (source_key t)) (target_key t) (fn t).

(** ** The importer's [apply] *)

(** A computation that calls collaborators: the calls made, in order, and
    the outcome.  The calls made before an exception stay in the trace. *)
Definition Traced (E A : Type) : Type := list E * result A.

Definition call {E A : Type} (e : E) (r : result A) : Traced E A := ([e], r).
Definition lift {E A : Type} (r : result A) : Traced E A := ([], r).

#[global] Instance traced_bind {E : Type} : MBind (Traced E) := fun A B k m =>
  match m.2 with
  | inl e => (m.1, inl e)
  | inr a => ((m.1 ++ (k a).1)%list, (k a).2)
  end.

Module HFDeepSeekImporter.

(** The calls [apply] makes outside this file. *)
Inductive Event (Tensor : Type) : Type :=
  | FromPretrained
  | Init
  | NemoSetup
  | ApplyTransforms (source : _ModelState Tensor) (mapping : gmap string string)
  | NemoSave (output_path : string)
  | LogInfo
  | Teardown.
Arguments FromPretrained {Tensor}.
Arguments Init {Tensor}.
Arguments NemoSetup {Tensor}.
Arguments ApplyTransforms {Tensor} _ _.
Arguments NemoSave {Tensor} _.
Arguments LogInfo {Tensor}.
Arguments Teardown {Tensor}.

(** What those calls answer.  [from_pretrained] stands for the state dict
    of the loaded Hugging Face model; each call may raise. *)
Record Collaborators (A Target Trainer : Type) : Type := Build_Collaborators
  { from_pretrained : result (gmap string (list A));
    init : DeepSeekConfig -> result Target;
    nemo_setup : Target -> result Trainer;
    apply_transforms :
      _ModelState (list A) -> Target -> gmap string string ->
      list (@StateTransform (list A)) -> result Target;
    nemo_save : string -> Trainer -> result unit;
    teardown : Trainer -> Target -> result unit }.
Arguments from_pretrained {A Target Trainer} _.
Arguments init {A Target Trainer} _ _.
Arguments nemo_setup {A Target Trainer} _ _.
Arguments apply_transforms {A Target Trainer} _ _ _ _ _.
Arguments nemo_save {A Target Trainer} _ _ _.
Arguments teardown {A Target Trainer} _ _ _.

Section Apply.
Context {A Target Trainer : Type}.
Variable c : Collaborators A Target Trainer.

(** [convert_state]: the table and the transforms go to
    [io.apply_transforms] with the source and the target. *)
Definition convert_state (cfg : DeepSeekConfig)
    (source : _ModelState (list A)) (target : Target) : result Target :=
  apply_transforms c source target
    (convert_state_mapping cfg) convert_state_transforms.

(** [apply], with [self.config] as input. *)
Definition apply (cfg : DeepSeekConfig) (output_path : string)
  : Traced (Event (list A)) string :=
  source ← call FromPretrained (from_pretrained c);
  source ← lift (_modify_source_state (moe_layer_freq cfg) source);
  target ← call Init (init c cfg);
  trainer ← call NemoSetup (nemo_setup c target);
  _ ← call (ApplyTransforms source (convert_state_mapping cfg))
         (convert_state cfg source target);
  _ ← call (NemoSave output_path) (nemo_save c output_path trainer);
  _ ← call LogInfo (ok ());
  _ ← call Teardown (teardown c trainer target);
  lift (ok output_path).

End Apply.

End HFDeepSeekImporter.

(** ** Patterns as text *)

(** [pattern.replace("*", value)] *)
Fixpoint replace_star (pattern value : string) : string :=
  match pattern with
  | EmptyString => EmptyString
  | String c rest =>
      if Ascii.eqb c "*" then value +:+ replace_star rest value
      else String c (replace_star rest value)
  end.

(** The pattern text with its wildcard markers replaced, from left to
    right, by the values; markers left over when the values run out
    stay. *)
Fixpoint fill_stars (pattern : string) (values : list string) : string :=
  match pattern with
  | EmptyString => EmptyString
  | String c rest =>
      if Ascii.eqb c "*" then
        match values with
        | value :: values' => value +:+ fill_stars rest values'
        | [] => String c (fill_stars rest [])
        end
      else String c (fill_stars rest values)
  end.

(** Modelled from the spec: the entries of a mapping whose source pattern
    matches a concrete source key (step 2 of the Mapping/Apply Engine). *)
Definition matching_entries (mapping : gmap string string) (name : string)
  : list (string * string) :=
  filter (fun entry => is_Some (Pattern.matches entry.1 name))
         (map_to_list mapping).

(** Modelled from the spec: the target key the Mapping/Apply Engine gives
    a concrete source key through the plain 1:1 entries of a mapping
    (step 3 with the default [rename]).  The key has to be consumed by
    exactly one entry; [None] is every other case. *)
Definition convert_key (mapping : gmap string string) (name : string)
  : option string :=
  match matching_entries mapping name with
  | [entry] => Pattern.rename entry.1 entry.2 name
  | _ => None
  end.

(** The source patterns of all rules of [convert_state]: the keys of the
    mapping, then the source keys of the transforms. *)
Definition rule_sources (cfg : DeepSeekConfig) : list string :=
  ((map_to_list (convert_state_mapping cfg)).*1
   ++ concat (source_key <$> @convert_state_transforms unit))%list.

(** The target patterns of all rules of [convert_state]. *)
Definition rule_targets (cfg : DeepSeekConfig) : list string :=
  ((map_to_list (convert_state_mapping cfg)).*2
   ++ (target_key <$> @convert_state_transforms unit))%list.

(** ** Views of the classification *)

(** The layer indices whose tag is 0, in increasing order. *)
Definition dense_layers (moe_layer_freq : list Z) : list nat :=
  (filter (fun item => item.2 = 0%Z) (enumerate moe_layer_freq)).*1.

(** What the test [use_moe == 0] keeps of a tag. *)
Definition normalise_tag (use_moe : Z) : Z :=
  if (use_moe =? 0)%Z then 0%Z else 1%Z.

(** ** Concrete inputs used below *)

(** Two layers, the first dense: both original layernorm keys present. *)
Definition two_layer_state : gmap string Z :=
  <[post_attention_key 0 := 10%Z]> (<[post_attention_key 1 := 11%Z]> ∅).

Definition two_layer_state_modified : gmap string Z :=
  <[dense_post_attention_key 0 := 10%Z]> (<[post_attention_key 1 := 11%Z]> ∅).

(** Layer 0 of a dense MLP: gate and up projections of two rows each. *)
Definition dense_mlp_state : gmap string (list Z) :=
  <["model.layers.0.mlp.gate_proj.weight" := [1%Z; 2%Z]]>
    (<["model.layers.0.mlp.up_proj.weight" := [3%Z; 4%Z]]> ∅).

(** The same layer with equal gate and up projections. *)
Definition equal_halves_state : gmap string (list Z) :=
  <["model.layers.0.mlp.gate_proj.weight" := [1%Z; 2%Z]]>
    (<["model.layers.0.mlp.up_proj.weight" := [1%Z; 2%Z]]> ∅).

(** Two dense layers, the layernorm key of the second one missing. *)
Definition missing_second_state : gmap string Z :=
  <[post_attention_key 0 := 10%Z]> ∅.

(** Collaborators that all answer, for a model of one dense layer. *)
Definition answering : HFDeepSeekImporter.Collaborators Z unit unit :=
  HFDeepSeekImporter.Build_Collaborators Z unit unit
    (ok (<[post_attention_key 0 := [10%Z]]> ∅))
    (fun _ => ok ()) (fun _ => ok ()) (fun _ target _ _ => ok target)
    (fun _ _ => ok ()) (fun _ _ => ok ()).

(** The same collaborators, the loaded model lacking its layernorm key. *)
Definition answering_without_key : HFDeepSeekImporter.Collaborators Z unit unit :=
  HFDeepSeekImporter.Build_Collaborators Z unit unit
    (ok ∅)
    (fun _ => ok ()) (fun _ => ok ()) (fun _ target _ _ => ok target)
    (fun _ _ => ok ()) (fun _ _ => ok ()).

Definition one_dense_layer_config : DeepSeekConfig :=
  Build_DeepSeekConfig 1 [0%Z] None 1 "softmax" None 3200.

(** One dense layer whose [dense-] key is already taken. *)
Definition clashing_state : gmap string Z :=
  <[post_attention_key 0 := 10%Z]> (<[dense_post_attention_key 0 := 20%Z]> ∅).

(** ** Sanity checks by evaluation *)

Example str_of_nat_0 : PyStr.str_of_nat 0 = "0". Proof. reflexivity. Qed.
Example str_of_nat_60 : PyStr.str_of_nat 60 = "60". Proof. reflexivity. Qed.
Example post_attention_key_3 :
  post_attention_key 3 = "model.layers.3.post_attention_layernorm.weight".
Proof. reflexivity. Qed.
Example modify_two_layer_state :
  _modify_source_state [0%Z; 1%Z] two_layer_state
  = ok (Build_ModelState two_layer_state_modified).
Proof. vm_compute. reflexivity. Qed.
Example compile_expert_target :
  Pattern.compile "decoder.layers.*.mlp.experts.linear_fc2.weight*"
  = [Pattern.Lit "decoder"; Pattern.Lit "layers"; Pattern.Wild "";
     Pattern.Lit "mlp"; Pattern.Lit "experts"; Pattern.Lit "linear_fc2";
     Pattern.Wild "weight"].
Proof. reflexivity. Qed.
Example rename_expert_down :
  Pattern.rename "model.layers.*.mlp.experts.*.down_proj.weight"
    "decoder.layers.*.mlp.experts.linear_fc2.weight*"
    "model.layers.12.mlp.experts.7.down_proj.weight"
  = Some "decoder.layers.12.mlp.experts.linear_fc2.weight7".
Proof. vm_compute. reflexivity. Qed.
Example matches_dense_not_moe :
  Pattern.matches "model.layers.*.post_attention_layernorm.weight"
    "model.layers.0.dense-post_attention_layernorm.weight" = None.
Proof. vm_compute. reflexivity. Qed.

(** ** Facts about decimal rendering, splitting and joining *)

Module PyStrFacts.
Import PyStr.

Lemma string_of_uint_digits d : all_digits (NilEmpty.string_of_uint d) = true.
Proof. induction d; simpl; auto. Qed.

Lemma str_of_nat_digits n : all_digits (str_of_nat n) = true.
Proof. apply string_of_uint_digits. Qed.

Lemma to_uint_not_nil n : Nat.to_uint n <> Decimal.Nil.
Proof.
  rewrite <- (DecimalNat.Unsigned.of_to n) at 1.
  rewrite DecimalNat.Unsigned.to_of. unfold Decimal.unorm.
  destruct (Decimal.nzhead (Nat.to_uint n)); discriminate.
Qed.

Lemma str_of_nat_nonempty n : str_of_nat n <> EmptyString.
Proof.
  unfold str_of_nat. pose proof (to_uint_not_nil n) as Hn.
  destruct (Nat.to_uint n); simpl; congruence.
Qed.

(** Parsing undoes printing. *)
Lemma nat_of_str_str_of_nat n : nat_of_str (str_of_nat n) = Some n.
Proof.
  pose proof (str_of_nat_nonempty n) as Hne.
  unfold nat_of_str. destruct (str_of_nat n) eqn:E; [congruence|].
  rewrite <- E. unfold str_of_nat.
  rewrite NilEmpty.usu. simpl. f_equal. apply DecimalNat.Unsigned.of_to.
Qed.

Lemma str_of_nat_inj n m : str_of_nat n = str_of_nat m -> n = m.
Proof.
  intros E. apply (f_equal nat_of_str) in E.
  rewrite !nat_of_str_str_of_nat in E. congruence.
Qed.

Lemma is_digit_not_dot c : is_digit c = true -> Ascii.eqb c "." = false.
Proof.
  destruct c as [[|] [|] [|] [|] [|] [|] [|] [|]]; cbv; congruence.
Qed.

Lemma all_digits_dot_free s : all_digits s = true -> dot_free s = true.
Proof.
  induction s as [|c s IH]; simpl; [done|].
  intros [Hc Hs]%andb_prop. rewrite (is_digit_not_dot c Hc). simpl. auto.
Qed.

Lemma str_of_nat_dot_free n : dot_free (str_of_nat n) = true.
Proof. apply all_digits_dot_free, str_of_nat_digits. Qed.

Lemma dot_free_app s t :
  dot_free s = true -> dot_free t = true -> dot_free (s +:+ t) = true.
Proof.
  intros Hs Ht. induction s as [|c s IH]; [done|].
  simpl in Hs. apply andb_prop in Hs as [Hc Hs].
  change (String c s +:+ t) with (String c (s +:+ t)).
  simpl. rewrite Hc. simpl. auto.
Qed.

Lemma split_dots_not_nil s : split_dots s <> [].
Proof.
  destruct s as [|c s]; simpl; [done|].
  destruct (Ascii.eqb c "."); [done|]. by destruct (split_dots s).
Qed.

Lemma split_dots_dot_free s : dot_free s = true -> split_dots s = [s].
Proof.
  induction s as [|c s IH]; simpl; [done|].
  intros [Hc Hs]%andb_prop. apply negb_true_iff in Hc. rewrite Hc.
  by rewrite (IH Hs).
Qed.

Lemma split_dots_app_dot seg rest :
  dot_free seg = true ->
  split_dots (seg +:+ String "." rest) = seg :: split_dots rest.
Proof.
  induction seg as [|c seg IH]; [done|].
  simpl. intros [Hc Hs]%andb_prop. apply negb_true_iff in Hc.
  change (String c seg +:+ String "." rest)
    with (String c (seg +:+ String "." rest)).
  simpl. rewrite Hc. by rewrite (IH Hs).
Qed.

(** Splitting undoes joining of dot-free segments. *)
Lemma split_join segs :
  segs <> [] -> forallb dot_free segs = true ->
  split_dots (join_dots segs) = segs.
Proof.
  induction segs as [|seg segs IH]; [done|].
  intros _ [Hseg Hsegs]%andb_prop. destruct segs as [|seg' segs].
  - simpl. by apply split_dots_dot_free.
  - change (join_dots (seg :: seg' :: segs))
      with (seg +:+ String "." (join_dots (seg' :: segs))).
    rewrite split_dots_app_dot by done. f_equal. by apply IH.
Qed.

Lemma join_dots_inj segs1 segs2 :
  segs1 <> [] -> segs2 <> [] ->
  forallb dot_free segs1 = true -> forallb dot_free segs2 = true ->
  join_dots segs1 = join_dots segs2 -> segs1 = segs2.
Proof.
  intros ? ? H1 H2 E. apply (f_equal split_dots) in E.
  by rewrite !split_join in E.
Qed.

End PyStrFacts.

(** ** Facts about the two layernorm keys *)

Lemma post_attention_key_segments i :
  post_attention_key i
  = PyStr.join_dots
      ["model"; "layers"; PyStr.str_of_nat i; "post_attention_layernorm"; "weight"].
Proof. reflexivity. Qed.

Lemma dense_post_attention_key_segments i :
  dense_post_attention_key i
  = PyStr.join_dots
      ["model"; "layers"; PyStr.str_of_nat i; "dense-post_attention_layernorm"; "weight"].
Proof. reflexivity. Qed.

Lemma layer_key_segments_inv i j a b :
  PyStr.dot_free a = true -> PyStr.dot_free b = true ->
  PyStr.join_dots ["model"; "layers"; PyStr.str_of_nat i; a; "weight"]
  = PyStr.join_dots ["model"; "layers"; PyStr.str_of_nat j; b; "weight"] ->
  i = j /\ a = b.
Proof.
  intros Ha Hb E. apply PyStrFacts.join_dots_inj in E; try done.
  - injection E as Ei Ea. split; [by apply PyStrFacts.str_of_nat_inj | done].
  - simpl. by rewrite PyStrFacts.str_of_nat_dot_free, Ha.
  - simpl. by rewrite PyStrFacts.str_of_nat_dot_free, Hb.
Qed.

Lemma post_attention_key_inj i j :
  post_attention_key i = post_attention_key j -> i = j.
Proof.
  rewrite !post_attention_key_segments.
  intros E. by apply layer_key_segments_inv in E as [? _].
Qed.

Lemma dense_post_attention_key_inj i j :
  dense_post_attention_key i = dense_post_attention_key j -> i = j.
Proof.
  rewrite !dense_post_attention_key_segments.
  intros E. by apply layer_key_segments_inv in E as [? _].
Qed.

Lemma post_attention_key_ne_dense i j :
  post_attention_key i <> dense_post_attention_key j.
Proof.
  rewrite post_attention_key_segments, dense_post_attention_key_segments.
  intros E. by apply layer_key_segments_inv in E as [_ ?].
Qed.

(** ** Facts about [enumerate] *)

Lemma elem_of_enumerate {A : Type} (xs : list A) i x :
  (i, x) ∈ enumerate xs <-> xs !! i = Some x.
Proof.
  unfold enumerate. rewrite list_elem_of_lookup. split.
  - intros [k Hk]. apply lookup_zip_with_Some in Hk as (a & b & E & Ha & Hb).
    injection E as -> ->. apply lookup_seq in Ha as [-> _]. done.
  - intros Hx. exists i. apply lookup_zip_with_Some. exists i, x.
    split_and!; [done| |done].
    apply lookup_seq. split; [done|]. by apply lookup_lt_Some in Hx.
Qed.

Lemma enumerate_indices {A : Type} (xs : list A) :
  (enumerate xs).*1 = seq 0 (length xs).
Proof. unfold enumerate. apply fst_zip. by rewrite length_seq. Qed.

Lemma NoDup_enumerate {A : Type} (xs : list A) : NoDup (enumerate xs).*1.
Proof. rewrite enumerate_indices. apply NoDup_seq. Qed.

(** ** The loop of [_modify_source_state] *)

Section ModifyLayers.
Context {Tensor : Type}.
Implicit Types (d : gmap string Tensor) (items : list (nat * Z)).

Lemma modify_layer_moe layer_i use_moe d :
  use_moe <> 0%Z -> modify_layer layer_i use_moe d = ok d.
Proof. unfold modify_layer. intros ->%Z.eqb_neq. done. Qed.

Lemma modify_layer_dense layer_i d weight :
  d !! post_attention_key layer_i = Some weight ->
  modify_layer layer_i 0 d
  = ok (<[dense_post_attention_key layer_i := weight]>
          (delete (post_attention_key layer_i) d)).
Proof. unfold modify_layer, dict_pop. simpl. by intros ->. Qed.

Lemma modify_layer_missing layer_i d :
  d !! post_attention_key layer_i = None ->
  modify_layer layer_i 0 d = raise (KeyError (post_attention_key layer_i)).
Proof. unfold modify_layer, dict_pop. simpl. by intros ->. Qed.

(** What a successful iteration is. *)
Lemma modify_layer_ok_inv layer_i use_moe d d' :
  modify_layer layer_i use_moe d = ok d' ->
  (use_moe <> 0%Z /\ d' = d) \/
  (use_moe = 0%Z /\ exists weight,
      d !! post_attention_key layer_i = Some weight /\
      d' = <[dense_post_attention_key layer_i := weight]>
             (delete (post_attention_key layer_i) d)).
Proof.
  destruct (decide (use_moe = 0%Z)) as [->|Hne].
  - destruct (d !! post_attention_key layer_i) as [w|] eqn:E.
    + rewrite (modify_layer_dense _ _ _ E). intros [= <-]. right. eauto.
    + rewrite (modify_layer_missing _ _ E). discriminate.
  - rewrite modify_layer_moe by done. intros [= <-]. by left.
Qed.

Lemma modify_layers_cons layer_i use_moe items d :
  modify_layers ((layer_i, use_moe) :: items) d
  = modify_layer layer_i use_moe d ≫= modify_layers items.
Proof. reflexivity. Qed.

Lemma modify_layers_cons_inv layer_i use_moe items d d' :
  modify_layers ((layer_i, use_moe) :: items) d = ok d' ->
  exists d1, modify_layer layer_i use_moe d = ok d1 /\
             modify_layers items d1 = ok d'.
Proof.
  simpl. destruct (modify_layer layer_i use_moe d) as [e|d1]; [discriminate|].
  intros H. by exists d1.
Qed.

(** Keys that belong to no dense-tagged item keep their binding. *)
Lemma modify_layers_frame items d d' key :
  modify_layers items d = ok d' ->
  (forall i, (i, 0%Z) ∈ items ->
     key <> post_attention_key i /\ key <> dense_post_attention_key i) ->
  d' !! key = d !! key.
Proof.
  revert d. induction items as [|[j u] items IH]; intros d Hrun Hkey.
  - by injection Hrun as <-.
  - apply modify_layers_cons_inv in Hrun as (d1 & Hstep & Hrest).
    rewrite (IH d1 Hrest).
    2:{ intros i Hi. apply Hkey. by right. }
    apply modify_layer_ok_inv in Hstep as [[_ ->]|(-> & w & _ & ->)]; [done|].
    destruct (Hkey j) as [Hp Hd]; [by left|].
    by rewrite lookup_insert_ne, lookup_delete_ne.
Qed.

Lemma other_layer_keys items j i :
  j ∉ items.*1 -> (i, 0%Z) ∈ items ->
  post_attention_key j <> post_attention_key i /\
  post_attention_key j <> dense_post_attention_key i /\
  dense_post_attention_key j <> post_attention_key i /\
  dense_post_attention_key j <> dense_post_attention_key i.
Proof.
  intros Hj Hi.
  assert (j <> i) as Hne.
  { intros ->. apply Hj. apply list_elem_of_fmap. by exists (i, 0%Z). }
  split_and!.
  - by intros ?%post_attention_key_inj.
  - apply post_attention_key_ne_dense.
  - intros E. by apply (post_attention_key_ne_dense i j).
  - by intros ?%dense_post_attention_key_inj.
Qed.

(** After a successful run, the original key of every dense-tagged
    item is gone and its tensor sits under the dense key. *)
Lemma modify_layers_dense items d d' i :
  NoDup items.*1 ->
  modify_layers items d = ok d' ->
  (i, 0%Z) ∈ items ->
  d' !! post_attention_key i = None /\
  d' !! dense_post_attention_key i = d !! post_attention_key i /\
  is_Some (d !! post_attention_key i).
Proof.
  revert d. induction items as [|[j u] items IH]; intros d Hnd Hrun Hi.
  - by apply elem_of_nil in Hi.
  - apply NoDup_cons in Hnd as [Hj Hnd].
    apply modify_layers_cons_inv in Hrun as (d1 & Hstep & Hrest).
    apply elem_of_cons in Hi as [[= -> <-]|Hi].
    + apply modify_layer_ok_inv in Hstep as [[? _]|(_ & w & Hw & ->)]; [done|].
      rewrite !(modify_layers_frame _ _ _ _ Hrest).
      * rewrite lookup_insert_ne by (intros E; by apply (post_attention_key_ne_dense j j)).
        rewrite lookup_delete_eq, lookup_insert_eq, Hw. eauto.
      * intros i Hi. by destruct (other_layer_keys _ _ _ Hj Hi) as (_ & _ & ? & ?).
      * intros i Hi. by destruct (other_layer_keys _ _ _ Hj Hi) as (? & ? & _ & _).
    + destruct (IH d1 Hnd Hrest Hi) as (Hgone & Hmoved & Hsome).
      destruct (other_layer_keys _ _ _ Hj Hi) as (Hpp & _ & Hdp & _).
      apply modify_layer_ok_inv in Hstep as [[_ ->]|(_ & w & Hw & ->)]; [done|].
      rewrite lookup_insert_ne, lookup_delete_ne in Hmoved, Hsome by done.
      done.
Qed.

(** The run succeeds when every dense-tagged item finds its key. *)
Lemma modify_layers_succeeds items d :
  NoDup items.*1 ->
  (forall i, (i, 0%Z) ∈ items -> is_Some (d !! post_attention_key i)) ->
  exists d', modify_layers items d = ok d'.
Proof.
  revert d. induction items as [|[j u] items IH]; intros d Hnd Hpre.
  - by exists d.
  - apply NoDup_cons in Hnd as [Hj Hnd]. rewrite modify_layers_cons.
    destruct (decide (u = 0%Z)) as [->|Hu].
    + destruct (Hpre j) as [w Hw]; [by left|].
      rewrite (modify_layer_dense _ _ _ Hw). apply (IH _ Hnd).
      intros i Hi. destruct (other_layer_keys _ _ _ Hj Hi) as (Hpp & _ & Hdp & _).
      rewrite lookup_insert_ne, lookup_delete_ne by done.
      apply Hpre. by right.
    + rewrite modify_layer_moe by done. apply (IH _ Hnd).
      intros i Hi. apply Hpre. by right.
Qed.

End ModifyLayers.

Lemma lookup_enumerate {A : Type} (xs : list A) k :
  enumerate xs !! k = (fun x => (k, x)) <$> xs !! k.
Proof.
  unfold enumerate. rewrite lookup_zip_with.
  destruct (xs !! k) as [x|] eqn:E.
  - rewrite lookup_seq_lt by (by apply lookup_lt_Some in E). done.
  - by destruct (seq 0 (length xs) !! k).
Qed.

Section ModifyLayersMore.
Context {Tensor : Type}.
Implicit Types (d : gmap string Tensor) (items : list (nat * Z)).

(** The run stops at the first dense-tagged item whose key is missing. *)
Lemma modify_layers_raises pre i post d :
  Forall (fun item => item.2 <> 0%Z) pre ->
  d !! post_attention_key i = None ->
  modify_layers (pre ++ (i, 0%Z) :: post) d
  = raise (KeyError (post_attention_key i)).
Proof.
  intros Hpre Hd. induction Hpre as [|[j u] pre Hu _ IH].
  - simpl app. rewrite modify_layers_cons, modify_layer_missing by done. done.
  - simpl app. rewrite modify_layers_cons, modify_layer_moe by done. exact IH.
Qed.

Lemma rename_key_values d old new weight :
  d !! old = Some weight -> d !! new = None ->
  dict_values (<[new := weight]> (delete old d)) ≡ₚ dict_values d.
Proof.
  intros Hold Hnew. unfold dict_values.
  rewrite map_to_list_insert.
  2:{ destruct (decide (old = new)) as [->|?]; [congruence|].
      by rewrite lookup_delete_ne. }
  rewrite <- (map_to_list_delete d old weight Hold). done.
Qed.

Lemma modify_layers_values items d d' :
  NoDup items.*1 ->
  (forall i, (i, 0%Z) ∈ items -> d !! dense_post_attention_key i = None) ->
  modify_layers items d = ok d' ->
  dict_values d' ≡ₚ dict_values d.
Proof.
  revert d. induction items as [|[j u] items IH]; intros d Hnd Hfresh Hrun.
  - by injection Hrun as <-.
  - apply NoDup_cons in Hnd as [Hj Hnd].
    apply modify_layers_cons_inv in Hrun as (d1 & Hstep & Hrest).
    apply modify_layer_ok_inv in Hstep as [[_ ->]|(-> & w & Hw & ->)].
    + apply (IH d Hnd); [|done]. intros i Hi. apply Hfresh. by right.
    + etrans; [eapply IH; [exact Hnd| |exact Hrest]|].
      * intros i Hi.
        destruct (other_layer_keys _ _ _ Hj Hi) as (_ & _ & Hdp & Hdd).
        rewrite lookup_insert_ne by done.
        rewrite lookup_delete_ne by apply post_attention_key_ne_dense.
        apply Hfresh. by right.
      * apply rename_key_values; [done|]. apply Hfresh. by left.
Qed.

End ModifyLayersMore.

(** ** The disambiguation pass *)

Section Disambiguation.
Context {Tensor : Type}.
Implicit Types (source : gmap string Tensor) (moe_layer_freq : list Z).

(** C1.  When the original layernorm key of every dense-tagged layer
    (tag 0) is in the state dict, [_modify_source_state] returns; in its
    result the original key of each dense-tagged layer is absent and the
    [dense-] key is bound to the tensor the original key had, and the
    original key of each layer tagged 1 is bound as before. *)
Theorem modify_source_state_renames_dense moe_layer_freq source :
  (forall i, moe_layer_freq !! i = Some 0%Z ->
     is_Some (source !! post_attention_key i)) ->
  exists st,
    _modify_source_state moe_layer_freq source = ok st /\
    (forall i, moe_layer_freq !! i = Some 0%Z ->
       state_dict st !! post_attention_key i = None /\
       state_dict st !! dense_post_attention_key i
       = source !! post_attention_key i) /\
    (forall i, moe_layer_freq !! i = Some 1%Z ->
       state_dict st !! post_attention_key i
       = source !! post_attention_key i).
Proof.
  intros Hpre.
  destruct (modify_layers_succeeds (enumerate moe_layer_freq) source)
    as [d' Hrun].
  { apply NoDup_enumerate. }
  { intros i Hi. apply Hpre. by apply elem_of_enumerate. }
  exists (Build_ModelState d'). split_and!.
  - unfold _modify_source_state. by rewrite Hrun.
  - intros i Hi. apply elem_of_enumerate in Hi.
    destruct (modify_layers_dense _ _ _ i (NoDup_enumerate _) Hrun Hi)
      as (Hgone & Hmoved & _).
    done.
  - intros i Hi. simpl.
    apply (modify_layers_frame _ _ _ _ Hrun).
    intros j Hj. apply elem_of_enumerate in Hj. split.
    + intros E. apply post_attention_key_inj in E as ->. congruence.
    + apply post_attention_key_ne_dense.
Qed.

(** C2, as amended.  When the classification has a dense tag and the
    first run returned, a second run on the returned dict raises
    [KeyError] on the original key of the first dense-tagged layer. *)
Theorem second_run_raises_key_error moe_layer_freq source st i :
  moe_layer_freq !! i = Some 0%Z ->
  (forall j, j < i -> moe_layer_freq !! j <> Some 0%Z) ->
  _modify_source_state moe_layer_freq source = ok st ->
  _modify_source_state moe_layer_freq (state_dict st)
  = raise (KeyError (post_attention_key i)).
Proof.
  intros Hi Hfirst Hrun. unfold _modify_source_state in Hrun.
  destruct (modify_layers (enumerate moe_layer_freq) source)
    as [e|d'] eqn:Hloop; [discriminate|].
  injection Hrun as <-. simpl.
  assert (d' !! post_attention_key i = None) as Hgone.
  { apply (modify_layers_dense _ _ _ i (NoDup_enumerate _) Hloop).
    by apply elem_of_enumerate. }
  assert (enumerate moe_layer_freq !! i = Some (i, 0%Z)) as Hat.
  { by rewrite lookup_enumerate, Hi. }
  apply list_elem_of_split_length in Hat as (pre & post & Hsplit & Hlen).
  unfold _modify_source_state. rewrite Hsplit.
  rewrite modify_layers_raises; [done| |done].
  apply Forall_lookup. intros j [a u] Hj Hu. simpl in Hu. subst u.
  assert (enumerate moe_layer_freq !! j = Some (a, 0%Z)) as Hj'.
  { rewrite Hsplit. by apply lookup_app_l_Some. }
  rewrite lookup_enumerate in Hj'.
  destruct (moe_layer_freq !! j) as [u|] eqn:E; [|done].
  injection Hj' as <- ->. apply lookup_lt_Some in Hj.
  apply (Hfirst j); [lia|done].
Qed.

(** C6, as amended.  When the pass returns and no dense-tagged layer's
    [dense-] key was in the dict beforehand, the values of the dict are
    the same up to order, the number of entries is the same, and every
    key that is neither the original nor the [dense-] key of a
    dense-tagged layer is bound as before. *)
Theorem modify_source_state_keeps_tensors moe_layer_freq source st :
  (forall i, moe_layer_freq !! i = Some 0%Z ->
     source !! dense_post_attention_key i = None) ->
  _modify_source_state moe_layer_freq source = ok st ->
  dict_values (state_dict st) ≡ₚ dict_values source /\
  size (state_dict st) = size source /\
  (forall key,
     (forall i, moe_layer_freq !! i = Some 0%Z ->
        key <> post_attention_key i /\ key <> dense_post_attention_key i) ->
     state_dict st !! key = source !! key).
Proof.
  intros Hfresh Hrun. unfold _modify_source_state in Hrun.
  destruct (modify_layers (enumerate moe_layer_freq) source)
    as [e|d'] eqn:Hloop; [discriminate|].
  injection Hrun as <-. simpl.
  assert (dict_values d' ≡ₚ dict_values source) as Hvalues.
  { apply (modify_layers_values (enumerate moe_layer_freq)); [|  |done].
    - apply NoDup_enumerate.
    - intros i Hi. apply Hfresh. by apply elem_of_enumerate. }
  split_and!.
  - done.
  - apply Permutation_length in Hvalues. unfold dict_values in Hvalues.
    by rewrite !length_fmap, !length_map_to_list in Hvalues.
  - intros key Hkey. apply (modify_layers_frame _ _ _ _ Hloop).
    intros i Hi. apply Hkey. by apply elem_of_enumerate.
Qed.

End Disambiguation.

Lemma modify_source_state_renames_dense_witness :
  exists st,
    _modify_source_state [0%Z; 1%Z] two_layer_state = ok st /\
    (forall i, [0%Z; 1%Z] !! i = Some 0%Z ->
       state_dict st !! post_attention_key i = None /\
       state_dict st !! dense_post_attention_key i
       = two_layer_state !! post_attention_key i) /\
    (forall i, [0%Z; 1%Z] !! i = Some 1%Z ->
       state_dict st !! post_attention_key i
       = two_layer_state !! post_attention_key i).
Proof.
  apply (modify_source_state_renames_dense [0%Z; 1%Z] two_layer_state).
  intros [|[|i]] Hi; [|discriminate Hi|discriminate Hi].
  exists 10%Z. vm_compute. reflexivity.
Defined.

(** C2 as stated fails: with no dense tag both runs return. *)
Lemma second_run_all_moe_returns :
  exists st,
    _modify_source_state [1%Z; 1%Z] two_layer_state = ok st /\
    forall key,
      _modify_source_state [1%Z; 1%Z] (state_dict st) <> raise (KeyError key).
Proof.
  exists (Build_ModelState two_layer_state). split.
  - vm_compute. reflexivity.
  - intros key. vm_compute. discriminate.
Qed.

Lemma second_run_raises_key_error_witness :
  _modify_source_state [0%Z; 1%Z]
    (state_dict (Build_ModelState two_layer_state_modified))
  = raise (KeyError (post_attention_key 0)).
Proof.
  apply (second_run_raises_key_error [0%Z; 1%Z] two_layer_state
           (Build_ModelState two_layer_state_modified) 0).
  - reflexivity.
  - intros j Hj. lia.
  - vm_compute. reflexivity.
Defined.

(** C6 as stated fails: a [dense-] key already in the dict is
    overwritten, so an entry and its tensor are lost. *)
Lemma modify_source_state_overwrites_dense_key :
  exists st,
    _modify_source_state [0%Z] clashing_state = ok st /\
    size (state_dict st) <> size clashing_state /\
    ~ (dict_values (state_dict st) ≡ₚ dict_values clashing_state) /\
    (forall i, [0%Z] !! i = Some 0%Z ->
       dense_post_attention_key 0 <> post_attention_key i) /\
    state_dict st !! dense_post_attention_key 0
    <> clashing_state !! dense_post_attention_key 0.
Proof.
  exists (Build_ModelState (<[dense_post_attention_key 0 := 10%Z]> ∅)).
  split_and!.
  - vm_compute. reflexivity.
  - vm_compute. discriminate.
  - intros Hperm. apply Permutation_length in Hperm.
    vm_compute in Hperm. discriminate.
  - intros i _ E. by apply (post_attention_key_ne_dense i 0).
  - vm_compute. discriminate.
Qed.

Lemma modify_source_state_keeps_tensors_witness :
  dict_values two_layer_state_modified ≡ₚ dict_values two_layer_state /\
  size two_layer_state_modified = size two_layer_state /\
  (forall key,
     (forall i, [0%Z; 1%Z] !! i = Some 0%Z ->
        key <> post_attention_key i /\ key <> dense_post_attention_key i) ->
     two_layer_state_modified !! key = two_layer_state !! key).
Proof.
  apply (modify_source_state_keeps_tensors [0%Z; 1%Z] two_layer_state
           (Build_ModelState two_layer_state_modified)).
  - intros [|[|i]] Hi; [|discriminate Hi|discriminate Hi].
    vm_compute. reflexivity.
  - vm_compute. reflexivity.
Defined.

(** ** The per-layer classification *)

Lemma list_mul_singleton {A : Type} (x : A) (n : Z) :
  list_mul [x] n = replicate (Z.to_nat n) x.
Proof.
  unfold list_mul. induction (Z.to_nat n) as [|k IH]; [done|].
  simpl. by rewrite IH.
Qed.

(** A run of [a] zeros followed by [b] ones: where each tag sits. *)
Lemma dense_then_moe_lookup (a b i : nat) :
  ((replicate a 0%Z ++ replicate b 1%Z)%list !! i = Some 0%Z <-> i < a) /\
  ((replicate a 0%Z ++ replicate b 1%Z)%list !! i = Some 1%Z <-> a <= i < a + b).
Proof.
  destruct (decide (i < a)) as [Hlt|Hge].
  - rewrite lookup_app_l by (by rewrite length_replicate).
    rewrite lookup_replicate_2 by done.
    split; split; intros; try done; lia.
  - rewrite lookup_app_r by (rewrite length_replicate; lia).
    rewrite length_replicate. split; split; try lia.
    + intros [? _]%lookup_replicate. done.
    + intros [_ ?]%lookup_replicate. lia.
    + intros ?. apply lookup_replicate. split; [done|lia].
Qed.

(** [config] hands the list to the dataclass unchanged: [__post_init__]
    itself does not assign [moe_layer_freq]. *)
Lemma config_passes_moe_layer_freq super_post_init base source cfg :
  (forall c c', super_post_init c = ok c' -> moe_layer_freq c' = moe_layer_freq c) ->
  config super_post_init base source = ok cfg ->
  moe_layer_freq cfg = config_moe_layer_freq source.
Proof.
  intros Hframe Hrun. unfold config, __post_init__ in Hrun.
  apply Hframe in Hrun. rewrite Hrun. unfold clamp_topk_limited_devices. simpl.
  by destruct (topk_group source).
Qed.

(** C8 as stated fails: with more leading dense layers than layers the
    list is longer than [num_hidden_layers]. *)
Lemma config_moe_layer_freq_too_long :
  config_moe_layer_freq (Build_HFConfig 1 2 "softmax" None) = [0%Z; 0%Z] /\
  Z.of_nat (length (config_moe_layer_freq (Build_HFConfig 1 2 "softmax" None)))
  <> num_hidden_layers (Build_HFConfig 1 2 "softmax" None).
Proof. split; [reflexivity|]. vm_compute. discriminate. Qed.

(** C8, as amended.  When [0 <= first_k_dense_replace <=
    num_hidden_layers], [moe_layer_freq] is [first_k_dense_replace] zeros
    followed by [num_hidden_layers - first_k_dense_replace] ones, one tag
    per layer, with tag 0 exactly at the indices below
    [first_k_dense_replace] and tag 1 at the remaining layer indices. *)
Theorem config_moe_layer_freq_one_tag_per_layer (source : HFConfig) :
  (0 <= first_k_dense_replace source <= num_hidden_layers source)%Z ->
  config_moe_layer_freq source
  = (replicate (Z.to_nat (first_k_dense_replace source)) 0%Z
     ++ replicate
          (Z.to_nat (num_hidden_layers source - first_k_dense_replace source))
          1%Z)%list /\
  Z.of_nat (length (config_moe_layer_freq source)) = num_hidden_layers source /\
  (forall i : nat,
     (config_moe_layer_freq source !! i = Some 0%Z
      <-> (Z.of_nat i < first_k_dense_replace source)%Z) /\
     (config_moe_layer_freq source !! i = Some 1%Z
      <-> (first_k_dense_replace source <= Z.of_nat i
           < num_hidden_layers source)%Z)).
Proof.
  intros Hk. unfold config_moe_layer_freq. rewrite !list_mul_singleton.
  split_and!.
  - done.
  - rewrite length_app, !length_replicate. lia.
  - intros i.
    destruct (dense_then_moe_lookup
                (Z.to_nat (first_k_dense_replace source))
                (Z.to_nat (num_hidden_layers source - first_k_dense_replace source))
                i) as [H0 H1].
    rewrite H0, H1. split; lia.
Qed.

Lemma config_moe_layer_freq_one_tag_per_layer_witness :
  config_moe_layer_freq (Build_HFConfig 4 1 "softmax" None)
  = [0%Z; 1%Z; 1%Z; 1%Z] /\
  Z.of_nat (length (config_moe_layer_freq (Build_HFConfig 4 1 "softmax" None)))
  = 4%Z.
Proof.
  destruct (config_moe_layer_freq_one_tag_per_layer
              (Build_HFConfig 4 1 "softmax" None)) as (Heq & Hlen & _).
  - simpl. lia.
  - split; [exact Heq|exact Hlen].
Defined.

(** C10.  The default classifications: [DeepSeekV2Config] has one 0
    followed by 59 ones, 60 tags for its 60 layers; [DeepSeekV3Config] has
    three 0s followed by 58 ones, 61 tags for its 61 layers; in each the
    tag is 0 exactly at the leading indices. *)
Theorem default_moe_layer_freq_covers_layers (base : DeepSeekConfig) :
  (moe_layer_freq (DeepSeekV2Config base) = 0%Z :: replicate 59 1%Z /\
   Z.of_nat (length (moe_layer_freq (DeepSeekV2Config base)))
   = num_layers (DeepSeekV2Config base) /\
   num_layers (DeepSeekV2Config base) = 60%Z /\
   forall i, moe_layer_freq (DeepSeekV2Config base) !! i = Some 0%Z <-> i < 1) /\
  (moe_layer_freq (DeepSeekV3Config base)
   = (replicate 3 0%Z ++ replicate 58 1%Z)%list /\
   Z.of_nat (length (moe_layer_freq (DeepSeekV3Config base)))
   = num_layers (DeepSeekV3Config base) /\
   num_layers (DeepSeekV3Config base) = 61%Z /\
   forall i, moe_layer_freq (DeepSeekV3Config base) !! i = Some 0%Z <-> i < 3).
Proof.
  split; split_and!; try reflexivity.
  - intros i. apply (dense_then_moe_lookup 1 59 i).
  - intros i. apply (dense_then_moe_lookup 3 58 i).
Qed.

(** ** [__post_init__] *)

Lemma clamp_topk_limited_devices_spec (self : DeepSeekConfig) :
  expert_model_parallel_size (clamp_topk_limited_devices self)
  = expert_model_parallel_size self /\
  moe_router_topk_limited_devices (clamp_topk_limited_devices self)
  = (fun limited => Z.min limited (expert_model_parallel_size self))
      <$> moe_router_topk_limited_devices self.
Proof.
  unfold clamp_topk_limited_devices.
  by destruct self as [? ? [limited|] ? ? ? ?].
Qed.

Section PostInit.
(** The parent classes' [__post_init__] assigns neither of the two
    fields. *)
Variable super_post_init : DeepSeekConfig -> result DeepSeekConfig.
Hypothesis super_post_init_frame : forall c c',
  super_post_init c = ok c' ->
  moe_router_topk_limited_devices c' = moe_router_topk_limited_devices c /\
  expert_model_parallel_size c' = expert_model_parallel_size c.

(** C9.  When [__post_init__] returns: a [moe_router_topk_limited_devices]
    that was not [None] is the minimum of its initial value and
    [expert_model_parallel_size], hence at most
    [expert_model_parallel_size]; one that was [None] is still [None]. *)
Theorem post_init_clamps_topk_limited_devices (self self' : DeepSeekConfig) :
  __post_init__ super_post_init self = ok self' ->
  match moe_router_topk_limited_devices self with
  | Some limited =>
      moe_router_topk_limited_devices self'
      = Some (Z.min limited (expert_model_parallel_size self)) /\
      (forall limited', moe_router_topk_limited_devices self' = Some limited' ->
         (limited' <= expert_model_parallel_size self')%Z)
  | None => moe_router_topk_limited_devices self' = None
  end.
Proof.
  unfold __post_init__. intros [Hl He]%super_post_init_frame.
  destruct (clamp_topk_limited_devices_spec self) as [He' Hl'].
  rewrite Hl, He, He', Hl'.
  destruct (moe_router_topk_limited_devices self) as [limited|]; simpl.
  - split; [done|]. intros ? [= <-]. lia.
  - done.
Qed.

End PostInit.

Lemma post_init_clamps_topk_limited_devices_witness :
  moe_router_topk_limited_devices
    (clamp_topk_limited_devices (Build_DeepSeekConfig 60 [] (Some 3%Z) 1 "softmax" None 3200))
  = Some (Z.min 3 1) /\
  (forall limited',
     moe_router_topk_limited_devices
       (clamp_topk_limited_devices (Build_DeepSeekConfig 60 [] (Some 3%Z) 1 "softmax" None 3200))
     = Some limited' ->
     (limited' <= expert_model_parallel_size
        (clamp_topk_limited_devices (Build_DeepSeekConfig 60 [] (Some 3%Z) 1 "softmax" None 3200)))%Z).
Proof.
  refine (post_init_clamps_topk_limited_devices ok _
            (Build_DeepSeekConfig 60 [] (Some 3%Z) 1 "softmax" None 3200) _ _).
  - intros c c' [= <-]. split; reflexivity.
  - reflexivity.
Defined.

(** ** The mapping table *)

(** C4.  The table has the entry from the [e_score_correction_bias]
    pattern to the [expert_bias] pattern exactly when the config has the
    attribute [moe_router_enable_expert_bias] and it is true; otherwise the
    pattern is not a key of the table, and a config without the attribute
    gets the same table as one where it is false. *)
Theorem expert_bias_entry_iff_enabled (cfg : DeepSeekConfig) :
  (convert_state_mapping cfg !! "model.layers.*.mlp.gate.e_score_correction_bias"
   = Some "decoder.layers.*.mlp.router.expert_bias"
   <-> moe_router_enable_expert_bias cfg = Some true) /\
  (moe_router_enable_expert_bias cfg <> Some true ->
   convert_state_mapping cfg !! "model.layers.*.mlp.gate.e_score_correction_bias"
   = None) /\
  (forall cfg' : DeepSeekConfig,
     moe_router_enable_expert_bias cfg = None ->
     moe_router_enable_expert_bias cfg' = Some false ->
     convert_state_mapping cfg = convert_state_mapping cfg').
Proof.
  unfold convert_state_mapping, expert_bias_enabled.
  split_and!.
  - destruct (moe_router_enable_expert_bias cfg) as [[|]|].
    + split; [done|]. intros _. vm_compute. reflexivity.
    + split; [|done]. vm_compute. discriminate.
    + split; [|done]. vm_compute. discriminate.
  - destruct (moe_router_enable_expert_bias cfg) as [[|]|]; intros Hne;
      [done| |]; vm_compute; reflexivity.
  - intros cfg' -> ->. reflexivity.
Qed.

(** ** Facts about key patterns *)

Module PatternFacts.
Import PyStr PyStrFacts Pattern.

Lemma strip_prefix_app p s : strip_prefix p (p +:+ s) = Some s.
Proof.
  induction p as [|c p IH]; [done|].
  change (String c p +:+ s) with (String c (p +:+ s)).
  simpl. by rewrite Ascii.eqb_refl.
Qed.

Lemma split_dots_all_dot_free s : forallb dot_free (split_dots s) = true.
Proof.
  induction s as [|c s IH]; [done|]. simpl.
  destruct (Ascii.eqb c ".") eqn:Hc; [done|].
  destruct (split_dots s) as [|seg segs]; simpl in *.
  - by rewrite Hc.
  - by rewrite Hc.
Qed.

Lemma wildcard_prefix_dot_free seg p :
  wildcard_prefix seg = Some p -> dot_free seg = true -> dot_free p = true.
Proof.
  revert p. induction seg as [|c seg IH]; intros p; [done|].
  simpl. destruct seg as [|c' seg'].
  - destruct (Ascii.eqb c "*"); [|done]. by intros [= <-].
  - destruct (wildcard_prefix (String c' seg')) as [q|]; [|done].
    intros [= <-] [Hc Hseg]%andb_prop. simpl. rewrite Hc. simpl.
    by apply IH.
Qed.

Lemma classify_dot_free seg :
  dot_free seg = true -> token_dot_free (classify seg) = true.
Proof.
  intros Hseg. unfold classify.
  destruct (wildcard_prefix seg) as [p|] eqn:E; simpl; [|done].
  by apply (wildcard_prefix_dot_free seg).
Qed.

Lemma compile_dot_free pattern :
  forallb token_dot_free (compile pattern) = true.
Proof.
  unfold compile. pose proof (split_dots_all_dot_free pattern) as H.
  induction (split_dots pattern) as [|seg segs IH]; [done|].
  simpl in H. apply andb_prop in H as [Hseg Hsegs].
  rewrite fmap_cons. cbn [forallb].
  rewrite classify_dot_free by done. by apply IH.
Qed.

Lemma compile_not_nil pattern : compile pattern <> [].
Proof.
  unfold compile. pose proof (split_dots_not_nil pattern).
  by destruct (split_dots pattern).
Qed.

(** Filling a pattern and matching the result gives the binding back. *)
Lemma match_fill tokens binding segments :
  fill tokens binding = Some segments ->
  match_segments tokens segments = Some binding.
Proof.
  revert binding segments.
  induction tokens as [|[l|p] tokens IH]; intros binding segments; simpl.
  - destruct binding; [|done]. by intros [= <-].
  - destruct (fill tokens binding) as [segs|] eqn:E; [|done].
    intros [= <-]. rewrite String.eqb_refl. by apply IH.
  - destruct binding as [|n binding]; [done|].
    destruct (fill tokens binding) as [segs|] eqn:E; [|done].
    intros [= <-]. rewrite strip_prefix_app. simpl.
    rewrite nat_of_str_str_of_nat. simpl. by rewrite (IH _ _ E).
Qed.

Lemma fill_dot_free tokens binding segments :
  forallb token_dot_free tokens = true ->
  fill tokens binding = Some segments ->
  forallb dot_free segments = true.
Proof.
  revert binding segments.
  induction tokens as [|[l|p] tokens IH]; intros binding segments; simpl.
  - destruct binding; [|done]. by intros _ [= <-].
  - intros [Hl Hts]%andb_prop.
    destruct (fill tokens binding) as [segs|] eqn:E; [|done].
    intros [= <-]. simpl. rewrite Hl. simpl. by apply (IH binding).
  - intros [Hp Hts]%andb_prop. destruct binding as [|n binding]; [done|].
    destruct (fill tokens binding) as [segs|] eqn:E; [|done].
    intros [= <-]. simpl.
    rewrite dot_free_app by (done || apply str_of_nat_dot_free). simpl.
    by apply (IH binding).
Qed.

Lemma fill_not_nil tokens binding segments :
  tokens <> [] -> fill tokens binding = Some segments -> segments <> [].
Proof.
  destruct tokens as [|[l|p] tokens]; [done| |]; intros _; simpl.
  - destruct (fill tokens binding); [|done]. by intros [= <-].
  - destruct binding; [done|].
    destruct (fill tokens binding); [|done]. by intros [= <-].
Qed.

Lemma match_segments_arity tokens segments binding :
  match_segments tokens segments = Some binding ->
  length binding = arity tokens.
Proof.
  revert segments binding.
  induction tokens as [|[l|p] tokens IH]; intros [|seg segments] binding;
    simpl; try done.
  - by intros [= <-].
  - destruct (String.eqb l seg); [|done]. apply IH.
  - destruct (strip_prefix p seg) as [digits|]; [|done]. simpl.
    destruct (nat_of_str digits) as [n|]; [|done]. simpl.
    destruct (match_segments tokens segments) as [b|] eqn:E; [|done].
    intros [= <-]. unfold arity. simpl. f_equal. by apply (IH segments).
Qed.

Lemma fill_is_Some tokens binding :
  length binding = arity tokens -> is_Some (fill tokens binding).
Proof.
  revert binding.
  induction tokens as [|[l|p] tokens IH]; intros binding; unfold arity; simpl.
  - destruct binding; [eauto|done].
  - intros H. destruct (IH binding H) as [segs ->]. simpl. eauto.
  - destruct binding as [|n binding]; [done|]. simpl. intros [= H].
    destruct (IH binding H) as [segs ->]. simpl. eauto.
Qed.

(** Clashing patterns never match the same segments. *)
Lemma clash_match_segments ts1 ts2 segments binding :
  clash ts1 ts2 = true ->
  match_segments ts1 segments = Some binding ->
  match_segments ts2 segments = None.
Proof.
  revert ts2 segments binding.
  induction ts1 as [|t1 ts1 IH]; intros [|t2 ts2] [|seg segments] binding;
    simpl; try done.
  - by destruct t2.
  - by destruct t1.
  - by destruct t1.
  - destruct t1 as [a|p], t2 as [b|q]; simpl.
    + destruct (String.eqb a seg) eqn:Ha; [|done].
      apply String.eqb_eq in Ha as ->.
      destruct (String.eqb seg b) eqn:Hb; simpl.
      * apply String.eqb_eq in Hb as ->. rewrite String.eqb_refl. apply IH.
      * rewrite String.eqb_sym, Hb. done.
    + intros Hc. destruct (String.eqb a seg); [|done]. intros Hm.
      rewrite (IH _ _ _ Hc Hm).
      destruct (strip_prefix q seg) as [ds|]; [|done]. simpl.
      by destruct (nat_of_str ds).
    + intros Hc. destruct (strip_prefix p seg) as [ds|]; [|done]. simpl.
      destruct (nat_of_str ds) as [n|]; [|done]. simpl.
      destruct (match_segments ts1 segments) as [b1|] eqn:E; [|done].
      intros _. rewrite (IH _ _ _ Hc E). by destruct (String.eqb b seg).
    + intros Hc. destruct (strip_prefix p seg) as [ds|]; [|done]. simpl.
      destruct (nat_of_str ds) as [n|]; [|done]. simpl.
      destruct (match_segments ts1 segments) as [b1|] eqn:E; [|done].
      intros _. rewrite (IH _ _ _ Hc E).
      destruct (strip_prefix q seg) as [ds'|]; [|done]. simpl.
      by destruct (nat_of_str ds').
Qed.

Lemma clash_matches p q name :
  clash (compile p) (compile q) = true ->
  is_Some (matches p name) -> matches q name = None.
Proof.
  unfold matches. intros Hc [b Hb]. by apply (clash_match_segments _ _ _ _ Hc Hb).
Qed.

(** Matching a name built from dot-free segments looks at those
    segments. *)
Lemma matches_join pattern segments :
  segments <> [] -> forallb dot_free segments = true ->
  matches pattern (join_dots segments)
  = match_segments (compile pattern) segments.
Proof. intros ? ?. unfold matches. by rewrite split_join. Qed.

(** The name a pattern gives a binding is matched by that pattern, with
    the same binding. *)
Lemma substitute_matches pattern binding name :
  substitute pattern binding = Some name ->
  matches pattern name = Some binding.
Proof.
  unfold substitute.
  destruct (fill (compile pattern) binding) as [segs|] eqn:E; [|done].
  intros [= <-]. rewrite matches_join.
  - by apply match_fill.
  - by apply (fill_not_nil _ _ _ (compile_not_nil pattern) E).
  - by apply (fill_dot_free _ _ _ (compile_dot_free pattern) E).
Qed.

Lemma matches_arity pattern name binding :
  matches pattern name = Some binding ->
  length binding = arity (compile pattern).
Proof. apply match_segments_arity. Qed.

Lemma substitute_is_Some pattern binding :
  length binding = arity (compile pattern) ->
  is_Some (substitute pattern binding).
Proof.
  intros H. unfold substitute.
  destruct (fill_is_Some _ _ H) as [segs ->]. simpl. eauto.
Qed.

End PatternFacts.

(** ** Facts about the table of [convert_state] *)

Lemma dict_update_lookup_Some {V : Type} (d : gmap string V) items key v :
  dict_update d items !! key = Some v ->
  (key, v) ∈ items \/ d !! key = Some v.
Proof.
  unfold dict_update. revert d.
  induction items as [|[k w] items IH]; intros d; simpl; [by right|].
  intros [Hin|Hd]%IH.
  - left. by right.
  - apply lookup_insert_Some in Hd as [[<- <-]|[_ Hd]].
    + left. by left.
    + by right.
Qed.

Lemma mapping_entry_listed cfg p t :
  convert_state_mapping cfg !! p = Some t -> (p, t) ∈ all_mapping_items.
Proof.
  unfold convert_state_mapping, dict_of_items, all_mapping_items.
  intros H. apply elem_of_app.
  destruct (expert_bias_enabled cfg).
  - apply dict_update_lookup_Some in H as [?|H]; [by right|].
    apply dict_update_lookup_Some in H as [?|H]; [by left|done].
  - apply dict_update_lookup_Some in H as [?|H]; [by left|done].
Qed.

Lemma all_mapping_items_same_arity :
  forallb (fun e => same_arity e.1 e.2) all_mapping_items = true.
Proof. vm_compute. reflexivity. Qed.

Lemma all_mapping_items_pairwise_clash :
  pairwise_clash all_mapping_items = true.
Proof. vm_compute. reflexivity. Qed.

Lemma convert_state_transforms_same_arity {A : Type} :
  forallb transform_same_arity (@convert_state_transforms A) = true.
Proof. vm_compute. reflexivity. Qed.

Lemma mapping_entry_same_arity cfg p t :
  convert_state_mapping cfg !! p = Some t ->
  Pattern.arity (Pattern.compile p) = Pattern.arity (Pattern.compile t).
Proof.
  intros H%mapping_entry_listed%list_elem_of_In.
  pose proof all_mapping_items_same_arity as Hall.
  rewrite forallb_forall in Hall. specialize (Hall _ H).
  by apply Nat.eqb_eq in Hall.
Qed.

Lemma mapping_entries_clash cfg p1 t1 p2 t2 :
  convert_state_mapping cfg !! p1 = Some t1 ->
  convert_state_mapping cfg !! p2 = Some t2 ->
  p1 <> p2 ->
  Pattern.clash (Pattern.compile p1) (Pattern.compile p2) = true /\
  Pattern.clash (Pattern.compile t1) (Pattern.compile t2) = true.
Proof.
  intros H1%mapping_entry_listed%list_elem_of_In
         H2%mapping_entry_listed%list_elem_of_In Hne.
  pose proof all_mapping_items_pairwise_clash as Hall.
  unfold pairwise_clash in Hall. rewrite forallb_forall in Hall.
  specialize (Hall _ H1). rewrite forallb_forall in Hall.
  specialize (Hall _ H2). unfold entries_clash in Hall. simpl in Hall.
  apply orb_prop in Hall as [Heq|Hc].
  - by apply String.eqb_eq in Heq.
  - by apply andb_prop in Hc.
Qed.

(** A pattern filled with a binding of its arity gives a name that the
    pattern matches with that binding. *)
Lemma substitute_same_arity source_pattern target_pattern name binding :
  Pattern.arity (Pattern.compile source_pattern)
  = Pattern.arity (Pattern.compile target_pattern) ->
  Pattern.matches source_pattern name = Some binding ->
  exists target,
    Pattern.rename source_pattern target_pattern name = Some target /\
    Pattern.substitute target_pattern binding = Some target /\
    Pattern.matches target_pattern target = Some binding.
Proof.
  intros Har Hm.
  destruct (PatternFacts.substitute_is_Some target_pattern binding) as [target Ht].
  { rewrite <- Har. by apply (PatternFacts.matches_arity _ name). }
  exists target. split_and!.
  - unfold Pattern.rename. rewrite Hm. done.
  - done.
  - by apply PatternFacts.substitute_matches.
Qed.

Lemma matches_post_attention_key i :
  Pattern.matches "model.layers.*.post_attention_layernorm.weight"
    (post_attention_key i) = Some [i].
Proof.
  apply (PatternFacts.substitute_matches _ [i]). vm_compute. reflexivity.
Qed.

Lemma matches_dense_post_attention_key i :
  Pattern.matches "model.layers.*.dense-post_attention_layernorm.weight"
    (dense_post_attention_key i) = Some [i].
Proof.
  apply (PatternFacts.substitute_matches _ [i]). vm_compute. reflexivity.
Qed.

Lemma mapping_has_layernorm_entries cfg :
  convert_state_mapping cfg
    !! "model.layers.*.dense-post_attention_layernorm.weight"
  = Some "decoder.layers.*.mlp.linear_fc1.layer_norm_weight" /\
  convert_state_mapping cfg !! "model.layers.*.post_attention_layernorm.weight"
  = Some "decoder.layers.*.pre_mlp_layernorm.weight".
Proof.
  unfold convert_state_mapping.
  destruct (expert_bias_enabled cfg); split; vm_compute; reflexivity.
Qed.

(** C5.  No name is matched by both layernorm patterns; the pass leaves a
    dense-tagged layer's tensor under its [dense-] key only, which the
    dense pattern matches, while the other pattern matches the original
    key; both patterns are entries of the table, and a name matched by
    either of them is matched by no other entry, so each layernorm tensor
    is consumed by exactly one entry; and two different entries never
    give the same target name. *)
Theorem layernorm_patterns_disjoint :
  (forall name,
     ~ (is_Some (Pattern.matches
                   "model.layers.*.dense-post_attention_layernorm.weight" name) /\
        is_Some (Pattern.matches
                   "model.layers.*.post_attention_layernorm.weight" name))) /\
  (forall i,
     Pattern.matches "model.layers.*.dense-post_attention_layernorm.weight"
       (dense_post_attention_key i) = Some [i] /\
     Pattern.matches "model.layers.*.post_attention_layernorm.weight"
       (post_attention_key i) = Some [i]) /\
  (forall (moe_layer_freq : list Z) (source : gmap string Z) st i,
     _modify_source_state moe_layer_freq source = ok st ->
     moe_layer_freq !! i = Some 0%Z ->
     state_dict st !! post_attention_key i = None /\
     is_Some (state_dict st !! dense_post_attention_key i)) /\
  (forall cfg,
     convert_state_mapping cfg
       !! "model.layers.*.dense-post_attention_layernorm.weight"
     = Some "decoder.layers.*.mlp.linear_fc1.layer_norm_weight" /\
     convert_state_mapping cfg
       !! "model.layers.*.post_attention_layernorm.weight"
     = Some "decoder.layers.*.pre_mlp_layernorm.weight") /\
  (forall cfg p t name,
     convert_state_mapping cfg !! p = Some t ->
     is_Some (Pattern.matches p name) ->
     (is_Some (Pattern.matches
                 "model.layers.*.dense-post_attention_layernorm.weight" name) ->
      p = "model.layers.*.dense-post_attention_layernorm.weight") /\
     (is_Some (Pattern.matches
                 "model.layers.*.post_attention_layernorm.weight" name) ->
      p = "model.layers.*.post_attention_layernorm.weight")) /\
  (forall cfg p1 t1 p2 t2 binding1 binding2 target,
     convert_state_mapping cfg !! p1 = Some t1 ->
     convert_state_mapping cfg !! p2 = Some t2 ->
     p1 <> p2 ->
     Pattern.substitute t1 binding1 = Some target ->
     Pattern.substitute t2 binding2 <> Some target).
Proof.
  split_and!.
  - intros name [Hd Hm].
    assert (Pattern.matches "model.layers.*.post_attention_layernorm.weight" name
            = None) as Hnone.
    { apply (PatternFacts.clash_matches
               "model.layers.*.dense-post_attention_layernorm.weight"
               "model.layers.*.post_attention_layernorm.weight" name);
        [vm_compute; reflexivity|exact Hd]. }
    rewrite Hnone in Hm. by destruct Hm.
  - intros i. split.
    + apply matches_dense_post_attention_key.
    + apply matches_post_attention_key.
  - intros moe_layer_freq source st i Hrun Hi.
    unfold _modify_source_state in Hrun.
    destruct (modify_layers (enumerate moe_layer_freq) source)
      as [e|d'] eqn:Hloop; [discriminate|].
    injection Hrun as <-. simpl.
    destruct (modify_layers_dense _ _ _ i (NoDup_enumerate _) Hloop)
      as (Hgone & Hmoved & Hsome); [by apply elem_of_enumerate|].
    rewrite Hmoved. done.
  - apply mapping_has_layernorm_entries.
  - intros cfg p t name Hp Hname.
    destruct (mapping_has_layernorm_entries cfg) as [Hdense Hmoe].
    split; intros Hother.
    + destruct (decide
        (p = "model.layers.*.dense-post_attention_layernorm.weight"))
        as [|Hne]; [done|exfalso].
      destruct (mapping_entries_clash _ _ _ _ _ Hp Hdense Hne) as [Hc _].
      rewrite (PatternFacts.clash_matches _ _ _ Hc Hname) in Hother.
      by destruct Hother.
    + destruct (decide (p = "model.layers.*.post_attention_layernorm.weight"))
        as [|Hne]; [done|exfalso].
      destruct (mapping_entries_clash _ _ _ _ _ Hp Hmoe Hne) as [Hc _].
      rewrite (PatternFacts.clash_matches _ _ _ Hc Hname) in Hother.
      by destruct Hother.
  - intros cfg p1 t1 p2 t2 b1 b2 target H1 H2 Hne Hs1 Hs2.
    destruct (mapping_entries_clash _ _ _ _ _ H1 H2 Hne) as [_ Hc].
    apply PatternFacts.substitute_matches in Hs1, Hs2.
    rewrite (PatternFacts.clash_matches t1 t2 target Hc) in Hs2; [done|].
    by rewrite Hs1.
Qed.

(** ** Wildcards carried from source to target *)

Lemma transform_pattern_same_arity {A : Type}
    (tr : @StateTransform (list A)) p :
  tr ∈ convert_state_transforms -> p ∈ source_key tr ->
  Pattern.arity (Pattern.compile p)
  = Pattern.arity (Pattern.compile (target_key tr)).
Proof.
  intros Htr%list_elem_of_In Hp%list_elem_of_In.
  pose proof (@convert_state_transforms_same_arity A) as Hall.
  rewrite forallb_forall in Hall. specialize (Hall _ Htr).
  unfold transform_same_arity in Hall. rewrite forallb_forall in Hall.
  specialize (Hall _ Hp). by apply Nat.eqb_eq in Hall.
Qed.

Lemma filter_unique {B : Type} (P : B -> Prop) `{!forall x, Decision (P x)}
    (l : list B) (x0 : B) :
  NoDup l -> x0 ∈ l -> P x0 ->
  (forall x, x ∈ l -> P x -> x = x0) ->
  filter P l = [x0].
Proof.
  induction l as [|a l IH]; intros Hnd Hin HP Huniq.
  - by apply elem_of_nil in Hin.
  - apply NoDup_cons in Hnd as [Hnotin Hnd]. rewrite filter_cons.
    destruct (decide (P a)) as [Ha|Ha].
    + assert (a = x0) as -> by (apply Huniq; [by left|done]).
      f_equal. destruct (filter P l) as [|y ys] eqn:E; [done|exfalso].
      assert (y ∈ filter P l) as Hy by (rewrite E; by left).
      apply list_elem_of_filter in Hy as [HPy Hyl].
      assert (y = x0) as -> by (apply Huniq; [by right|done]). done.
    + apply IH; [done| |done|].
      * apply elem_of_cons in Hin as [->|?]; done.
      * intros x Hx. apply Huniq. by right.
Qed.

(** The entry whose source pattern matches a key is the only one that
    does, so it decides the target key. *)
Lemma convert_key_of_match cfg p t name binding :
  convert_state_mapping cfg !! p = Some t ->
  Pattern.matches p name = Some binding ->
  convert_key (convert_state_mapping cfg) name = Pattern.substitute t binding.
Proof.
  intros Hp Hm. unfold convert_key, matching_entries.
  rewrite (filter_unique _ _ (p, t)).
  - unfold Pattern.rename. simpl. by rewrite Hm.
  - apply NoDup_map_to_list.
  - by apply elem_of_map_to_list.
  - simpl. by rewrite Hm.
  - intros [p' t'] Hin%elem_of_map_to_list Hsome. simpl in Hsome.
    destruct (decide (p' = p)) as [->|Hne]; [congruence|exfalso].
    destruct (mapping_entries_clash _ _ _ _ _ Hin Hp Hne) as [Hc _].
    rewrite (PatternFacts.clash_matches _ _ _ Hc Hsome) in Hm. done.
Qed.

Lemma string_app_nil_r s : s +:+ "" = s.
Proof.
  induction s as [|c s IH]; [done|].
  change (String c s +:+ "") with (String c (s +:+ "")). by rewrite IH.
Qed.

(** A binding of one, two or no integers, as the arity says. *)
Ltac binding_of_arity Hlen binding :=
  match type of Hlen with
  | _ = ?a => let v := eval vm_compute in a in change a with v in Hlen
  end;
  destruct binding as [|? [|? [|? ?]]]; try discriminate Hlen.

(** For every entry the table can hold, filling either pattern with a
    binding of the source's arity gives the pattern text with the
    integers written in place of the markers, in order. *)
Lemma all_mapping_items_fill p t binding :
  (p, t) ∈ all_mapping_items ->
  length binding = Pattern.arity (Pattern.compile p) ->
  Pattern.substitute p binding
  = Some (fill_stars p (PyStr.str_of_nat <$> binding)) /\
  Pattern.substitute t binding
  = Some (fill_stars t (PyStr.str_of_nat <$> binding)).
Proof.
  intros Hin Hlen.
  unfold all_mapping_items, mapping_items, expert_bias_items in Hin.
  simpl app in Hin.
  repeat (apply elem_of_cons in Hin as [[= -> ->]|Hin];
          [binding_of_arity Hlen binding; split; simpl fill_stars;
           rewrite ?string_app_nil_r; vm_compute; reflexivity|]).
  by apply elem_of_nil in Hin.
Qed.

Lemma convert_state_transforms_fill {A : Type}
    (tr : @StateTransform (list A)) p binding :
  tr ∈ convert_state_transforms -> p ∈ source_key tr ->
  length binding = Pattern.arity (Pattern.compile p) ->
  Pattern.substitute p binding
  = Some (fill_stars p (PyStr.str_of_nat <$> binding)) /\
  Pattern.substitute (target_key tr) binding
  = Some (fill_stars (target_key tr) (PyStr.str_of_nat <$> binding)).
Proof.
  intros Htr Hp Hlen. unfold convert_state_transforms in Htr.
  repeat (apply elem_of_cons in Htr as [->|Htr];
          [simpl in Hp;
           repeat (apply elem_of_cons in Hp as [->|Hp];
                   [binding_of_arity Hlen binding; split; simpl fill_stars;
                    rewrite ?string_app_nil_r; vm_compute; reflexivity|]);
           by apply elem_of_nil in Hp|]).
  by apply elem_of_nil in Htr.
Qed.

Lemma mapping_has_expert_entry cfg :
  convert_state_mapping cfg !! "model.layers.*.mlp.experts.*.down_proj.weight"
  = Some "decoder.layers.*.mlp.experts.linear_fc2.weight*".
Proof.
  unfold convert_state_mapping.
  destruct (expert_bias_enabled cfg); vm_compute; reflexivity.
Qed.

(** C7.  The table and the transforms of [convert_state], read by the
    engine (a marker closing a segment, as in [linear_fc2.weight*],
    being a wildcard like one that fills a segment).  Whenever the source
    pattern of a mapping entry matches a key, that entry alone consumes
    the key, and the target key is the target pattern's text with the
    captured integers written in place of its markers, unchanged and in
    the same order; matching the target pattern against it gives the same
    binding back.  Every binding of an entry's arity arises this way.
    The same holds between each source pattern of a transform and its
    target.  So the per-expert [down_proj] key of layer [L] and expert
    [E] becomes [decoder.layers.L.mlp.experts.linear_fc2.weightE], the
    layernorm key of a layer the [pre_mlp_layernorm] key of the same
    layer, and the per-expert gate and up keys of [L] and [E] feed
    [decoder.layers.L.mlp.experts.linear_fc1.weightE]. *)
Theorem wildcards_carried_to_target :
  (forall cfg p t name binding,
     convert_state_mapping cfg !! p = Some t ->
     Pattern.matches p name = Some binding ->
     matching_entries (convert_state_mapping cfg) name = [(p, t)] /\
     convert_key (convert_state_mapping cfg) name
     = Some (fill_stars t (PyStr.str_of_nat <$> binding)) /\
     Pattern.matches t (fill_stars t (PyStr.str_of_nat <$> binding))
     = Some binding) /\
  (forall cfg p t binding,
     convert_state_mapping cfg !! p = Some t ->
     length binding = Pattern.arity (Pattern.compile p) ->
     Pattern.matches p (fill_stars p (PyStr.str_of_nat <$> binding))
     = Some binding) /\
  (forall (A : Type) (tr : @StateTransform (list A)) p name binding,
     tr ∈ convert_state_transforms -> p ∈ source_key tr ->
     Pattern.matches p name = Some binding ->
     Pattern.substitute (target_key tr) binding
     = Some (fill_stars (target_key tr) (PyStr.str_of_nat <$> binding)) /\
     Pattern.matches (target_key tr)
       (fill_stars (target_key tr) (PyStr.str_of_nat <$> binding))
     = Some binding) /\
  (forall cfg L E,
     Pattern.matches "model.layers.*.mlp.experts.*.down_proj.weight"
       ("model.layers." +:+ PyStr.str_of_nat L +:+ ".mlp.experts."
        +:+ PyStr.str_of_nat E +:+ ".down_proj.weight") = Some [L; E] /\
     convert_key (convert_state_mapping cfg)
       ("model.layers." +:+ PyStr.str_of_nat L +:+ ".mlp.experts."
        +:+ PyStr.str_of_nat E +:+ ".down_proj.weight")
     = Some ("decoder.layers." +:+ PyStr.str_of_nat L
             +:+ ".mlp.experts.linear_fc2.weight" +:+ PyStr.str_of_nat E)) /\
  (forall cfg L,
     Pattern.matches "model.layers.*.post_attention_layernorm.weight"
       (post_attention_key L) = Some [L] /\
     convert_key (convert_state_mapping cfg) (post_attention_key L)
     = Some ("decoder.layers." +:+ PyStr.str_of_nat L
             +:+ ".pre_mlp_layernorm.weight")) /\
  (forall (A : Type) L E,
     exists tr : @StateTransform (list A),
       convert_state_transforms !! 1 = Some tr /\
       mapM (fun p => Pattern.substitute p [L; E]) (source_key tr)
       = Some ["model.layers." +:+ PyStr.str_of_nat L +:+ ".mlp.experts."
               +:+ PyStr.str_of_nat E +:+ ".gate_proj.weight";
               "model.layers." +:+ PyStr.str_of_nat L +:+ ".mlp.experts."
               +:+ PyStr.str_of_nat E +:+ ".up_proj.weight"] /\
       Pattern.substitute (target_key tr) [L; E]
       = Some ("decoder.layers." +:+ PyStr.str_of_nat L
               +:+ ".mlp.experts.linear_fc1.weight" +:+ PyStr.str_of_nat E)).
Proof.
  split_and!.
  - intros cfg p t name binding Hp Hm.
    destruct (all_mapping_items_fill p t binding) as [_ Ht].
    { by apply (mapping_entry_listed cfg). }
    { by apply (PatternFacts.matches_arity _ name). }
    split_and!.
    + unfold matching_entries. apply filter_unique.
      * apply NoDup_map_to_list.
      * by apply elem_of_map_to_list.
      * simpl. by rewrite Hm.
      * intros [p' t'] Hin%elem_of_map_to_list Hsome. simpl in Hsome.
        destruct (decide (p' = p)) as [->|Hne]; [congruence|exfalso].
        destruct (mapping_entries_clash _ _ _ _ _ Hin Hp Hne) as [Hc _].
        rewrite (PatternFacts.clash_matches _ _ _ Hc Hsome) in Hm. done.
    + by rewrite (convert_key_of_match cfg p t name binding).
    + by apply PatternFacts.substitute_matches.
  - intros cfg p t binding Hp Hlen.
    destruct (all_mapping_items_fill p t binding) as [Hs _]; [|done|].
    { by apply (mapping_entry_listed cfg). }
    by apply PatternFacts.substitute_matches.
  - intros A tr p name binding Htr Hp Hm.
    destruct (convert_state_transforms_fill tr p binding) as [_ Ht];
      [done|done| |].
    { by apply (PatternFacts.matches_arity _ name). }
    split; [done|]. by apply PatternFacts.substitute_matches.
  - intros cfg L E.
    assert (Pattern.matches "model.layers.*.mlp.experts.*.down_proj.weight"
              ("model.layers." +:+ PyStr.str_of_nat L +:+ ".mlp.experts."
               +:+ PyStr.str_of_nat E +:+ ".down_proj.weight")
            = Some [L; E]) as Hm.
    { apply (PatternFacts.substitute_matches _ [L; E]).
      vm_compute. reflexivity. }
    split; [exact Hm|].
    rewrite (convert_key_of_match cfg
               "model.layers.*.mlp.experts.*.down_proj.weight"
               "decoder.layers.*.mlp.experts.linear_fc2.weight*" _ [L; E]).
    + vm_compute. reflexivity.
    + apply mapping_has_expert_entry.
    + exact Hm.
  - intros cfg L. split; [apply matches_post_attention_key|].
    rewrite (convert_key_of_match cfg
               "model.layers.*.post_attention_layernorm.weight"
               "decoder.layers.*.pre_mlp_layernorm.weight" _ [L]).
    + vm_compute. reflexivity.
    + apply mapping_has_layernorm_entries.
    + apply matches_post_attention_key.
  - intros A L E. eexists. split; [reflexivity|].
    split; vm_compute; reflexivity.
Qed.

Lemma wildcards_carried_to_target_witness :
  matching_entries
    (convert_state_mapping (Build_DeepSeekConfig 60 [] None 1 "softmax" None 3200))
    "model.layers.12.mlp.experts.7.down_proj.weight"
  = [("model.layers.*.mlp.experts.*.down_proj.weight",
      "decoder.layers.*.mlp.experts.linear_fc2.weight*")] /\
  convert_key
    (convert_state_mapping (Build_DeepSeekConfig 60 [] None 1 "softmax" None 3200))
    "model.layers.12.mlp.experts.7.down_proj.weight"
  = Some "decoder.layers.12.mlp.experts.linear_fc2.weight7" /\
  Pattern.matches "decoder.layers.*.mlp.experts.linear_fc2.weight*"
    "decoder.layers.12.mlp.experts.linear_fc2.weight7" = Some [12; 7].
Proof.
  refine (proj1 wildcards_carried_to_target
            (Build_DeepSeekConfig 60 [] None 1 "softmax" None 3200)
            "model.layers.*.mlp.experts.*.down_proj.weight"
            "decoder.layers.*.mlp.experts.linear_fc2.weight*"
            "model.layers.12.mlp.experts.7.down_proj.weight" [12; 7] _ _).
  - vm_compute. reflexivity.
  - vm_compute. reflexivity.
Defined.

(** ** The fc1 merges *)

Section MergeOrder.
Context {A : Type}.
Implicit Types (gate up : list A) (source : gmap string (list A)).

Lemma merge_fc1_shape gate up d :
  length gate = d -> length up = d ->
  length (gate ++ up) = 2 * d /\
  take d (gate ++ up) = gate /\
  drop d (gate ++ up) = up.
Proof.
  intros Hg Hu. split_and!.
  - rewrite length_app. lia.
  - by apply take_app_length'.
  - by apply drop_app_length'.
Qed.

Lemma merge_fc1_order_matters gate up :
  length gate = length up -> gate <> up -> (up ++ gate)%list <> (gate ++ up)%list.
Proof.
  intros Hlen Hne E. apply app_inj_1 in E as [E _]; [|done]. congruence.
Qed.

(** A transform of two sources fetches them in the declared order. *)
Lemma apply_transform_two p1 p2 target_pattern f binding source
    name1 name2 target tensor1 tensor2 out :
  Pattern.substitute p1 binding = Some name1 ->
  Pattern.substitute p2 binding = Some name2 ->
  Pattern.substitute target_pattern binding = Some target ->
  source !! name1 = Some tensor1 -> source !! name2 = Some tensor2 ->
  f [tensor1; tensor2] = Some out ->
  apply_transform (state_transform [p1; p2] target_pattern f) binding source
  = Some (target, out).
Proof.
  intros H1 H2 Ht Hs1 Hs2 Hf. unfold apply_transform. simpl.
  rewrite H1, H2. simpl. rewrite Hs1, Hs2. simpl. rewrite Hf, Ht. done.
Qed.

(** C3, as amended.  Each of the three fc1 transforms declares the
    [gate_proj] pattern first and the [up_proj] pattern second.  Applied
    to a binding whose two source names hold tensors [gate] and [up] of
    [d] slices each, it yields [gate] followed by [up]: [2 * d] slices,
    the first [d] being [gate] and the last [d] being [up]; and when
    [gate] and [up] differ, declaring the sources in the opposite order
    yields a different tensor. *)
Theorem fc1_merge_keeps_declared_order
    (tr : @StateTransform (list A)) binding source gate up d :
  tr ∈ convert_state_transforms ->
  length gate = d -> length up = d ->
  exists prefix,
    source_key tr
    = [prefix +:+ "gate_proj.weight"; prefix +:+ "up_proj.weight"] /\
    forall gate_name up_name target,
      Pattern.substitute (prefix +:+ "gate_proj.weight") binding = Some gate_name ->
      Pattern.substitute (prefix +:+ "up_proj.weight") binding = Some up_name ->
      Pattern.substitute (target_key tr) binding = Some target ->
      source !! gate_name = Some gate ->
      source !! up_name = Some up ->
      apply_transform tr binding source = Some (target, (gate ++ up)%list) /\
      length (gate ++ up) = 2 * d /\
      take d (gate ++ up) = gate /\
      drop d (gate ++ up) = up /\
      (gate <> up ->
       apply_transform (reverse_sources tr) binding source
       = Some (target, (up ++ gate)%list) /\
       (up ++ gate)%list <> (gate ++ up)%list).
Proof.
  intros Htr Hg Hu. unfold convert_state_transforms in Htr.
  assert (forall p1 p2 tp gate_name up_name target,
    Pattern.substitute p1 binding = Some gate_name ->
    Pattern.substitute p2 binding = Some up_name ->
    Pattern.substitute tp binding = Some target ->
    source !! gate_name = Some gate ->
    source !! up_name = Some up ->
    apply_transform (state_transform [p1; p2] tp merge_fc1) binding source
    = Some (target, (gate ++ up)%list) /\
    length (gate ++ up) = 2 * d /\
    take d (gate ++ up) = gate /\
    drop d (gate ++ up) = up /\
    (gate <> up ->
     apply_transform (reverse_sources (state_transform [p1; p2] tp merge_fc1))
       binding source
     = Some (target, (up ++ gate)%list) /\
     (up ++ gate)%list <> (gate ++ up)%list)) as Hgeneric.
  { intros p1 p2 tp gate_name up_name target H1 H2 Ht Hs1 Hs2.
    destruct (merge_fc1_shape gate up d Hg Hu) as (Hlen & Htake & Hdrop).
    split_and!; try done.
    - by apply (apply_transform_two _ _ _ _ _ _ gate_name up_name _ gate up).
    - intros Hne. split.
      + by apply (apply_transform_two _ _ _ _ _ _ up_name gate_name _ up gate).
      + apply merge_fc1_order_matters; congruence. }
  apply elem_of_cons in Htr as [->|Htr];
    [|apply elem_of_cons in Htr as [->|Htr];
      [|apply elem_of_cons in Htr as [->|Htr];
        [|by apply elem_of_nil in Htr]]].
  - exists "model.layers.*.mlp.". split; [reflexivity|]. apply Hgeneric.
  - exists "model.layers.*.mlp.experts.*.". split; [reflexivity|]. apply Hgeneric.
  - exists "model.layers.*.mlp.shared_experts.". split; [reflexivity|].
    apply Hgeneric.
Qed.

End MergeOrder.

(** C3 as stated fails: with equal gate and up tensors, declaring the
    sources in the opposite order gives the same merged tensor. *)
Lemma reversed_merge_of_equal_halves :
  exists tr : @StateTransform (list Z),
    tr ∈ convert_state_transforms /\
    apply_transform tr [0] equal_halves_state
    = Some ("decoder.layers.0.mlp.linear_fc1.weight", [1%Z; 2%Z; 1%Z; 2%Z]) /\
    apply_transform (reverse_sources tr) [0] equal_halves_state
    = apply_transform tr [0] equal_halves_state.
Proof.
  eexists. split; [by left|]. split; vm_compute; reflexivity.
Qed.

Lemma fc1_merge_keeps_declared_order_witness :
  exists tr : @StateTransform (list Z),
    tr ∈ convert_state_transforms /\
    apply_transform tr [0] dense_mlp_state
    = Some ("decoder.layers.0.mlp.linear_fc1.weight", [1%Z; 2%Z; 3%Z; 4%Z]) /\
    apply_transform (reverse_sources tr) [0] dense_mlp_state
    = Some ("decoder.layers.0.mlp.linear_fc1.weight", [3%Z; 4%Z; 1%Z; 2%Z]).
Proof.
  exists (state_transform
            ["model.layers.*.mlp.gate_proj.weight";
             "model.layers.*.mlp.up_proj.weight"]
            "decoder.layers.*.mlp.linear_fc1.weight" merge_fc1).
  split; [by left|].
  destruct (fc1_merge_keeps_declared_order
              (state_transform
                 ["model.layers.*.mlp.gate_proj.weight";
                  "model.layers.*.mlp.up_proj.weight"]
                 "decoder.layers.*.mlp.linear_fc1.weight" merge_fc1)
              [0] dense_mlp_state [1%Z; 2%Z] [3%Z; 4%Z] 2)
    as (prefix & Hsources & Hrun).
  - by left.
  - reflexivity.
  - reflexivity.
  - simpl in Hsources. injection Hsources as Hgate Hup.
    destruct (Hrun "model.layers.0.mlp.gate_proj.weight"
                "model.layers.0.mlp.up_proj.weight"
                "decoder.layers.0.mlp.linear_fc1.weight")
      as (Happly & _ & _ & _ & Hrev).
    + rewrite <- Hgate. vm_compute. reflexivity.
    + rewrite <- Hup. vm_compute. reflexivity.
    + vm_compute. reflexivity.
    + vm_compute. reflexivity.
    + vm_compute. reflexivity.
    + split; [exact Happly|]. apply Hrev. discriminate.
Defined.

Lemma expert_bias_entry_iff_enabled_witness :
  convert_state_mapping (DeepSeekV3Config (Build_DeepSeekConfig 61 [] None 1 "sigmoid" None 1280))
    !! "model.layers.*.mlp.gate.e_score_correction_bias"
  = Some "decoder.layers.*.mlp.router.expert_bias" /\
  convert_state_mapping (Build_DeepSeekConfig 60 [] None 1 "softmax" None 3200)
    !! "model.layers.*.mlp.gate.e_score_correction_bias"
  = None.
Proof.
  split.
  - apply (expert_bias_entry_iff_enabled
             (DeepSeekV3Config (Build_DeepSeekConfig 61 [] None 1 "sigmoid" None 1280))).
    reflexivity.
  - apply (expert_bias_entry_iff_enabled
             (Build_DeepSeekConfig 60 [] None 1 "softmax" None 3200)).
    discriminate.
Defined.

Lemma layernorm_patterns_disjoint_witness :
  Pattern.substitute "decoder.layers.*.pre_mlp_layernorm.weight" [0]
  <> Some "decoder.layers.0.mlp.linear_fc1.layer_norm_weight" /\
  state_dict (Build_ModelState two_layer_state_modified) !! post_attention_key 0
  = None.
Proof.
  destruct layernorm_patterns_disjoint as (_ & _ & Hpass & _ & _ & Htargets).
  split.
  - apply (Htargets (Build_DeepSeekConfig 60 [] None 1 "softmax" None 3200)
             "model.layers.*.dense-post_attention_layernorm.weight"
             "decoder.layers.*.mlp.linear_fc1.layer_norm_weight"
             "model.layers.*.post_attention_layernorm.weight"
             "decoder.layers.*.pre_mlp_layernorm.weight" [0] [0]).
    + vm_compute. reflexivity.
    + vm_compute. reflexivity.
    + discriminate.
    + vm_compute. reflexivity.
  - apply (Hpass [0%Z; 1%Z] two_layer_state
             (Build_ModelState two_layer_state_modified) 0).
    + vm_compute. reflexivity.
    + reflexivity.
Defined.


(** * Further properties of the importer *)

(** ** More on the disambiguation pass *)

Lemma elem_of_dense_layers (moe_layer_freq : list Z) i :
  i ∈ dense_layers moe_layer_freq <-> moe_layer_freq !! i = Some 0%Z.
Proof.
  unfold dense_layers. rewrite list_elem_of_fmap. split.
  - intros ([j u] & -> & [Hu Hin]%list_elem_of_filter). simpl in *. subst u.
    by apply elem_of_enumerate.
  - intros Hi. exists (i, 0%Z). split; [done|].
    apply list_elem_of_filter. split; [done|]. by apply elem_of_enumerate.
Qed.

(** The items before a position of [enumerate] carry the smaller
    indices. *)
Lemma enumerate_split {A : Type} (xs : list A) i x :
  xs !! i = Some x ->
  exists pre post,
    enumerate xs = (pre ++ (i, x) :: post)%list /\
    length pre = i /\
    (forall j y, (j, y) ∈ pre <-> j < i /\ xs !! j = Some y).
Proof.
  intros Hi.
  assert (enumerate xs !! i = Some (i, x)) as Hat.
  { by rewrite lookup_enumerate, Hi. }
  apply list_elem_of_split_length in Hat as (pre & post & Hsplit & Hlen).
  exists pre, post. split_and!; [done|done|].
  intros j y. split.
  - intros [k Hk]%list_elem_of_lookup.
    assert (enumerate xs !! k = Some (j, y)) as Hk'.
    { rewrite Hsplit. by apply lookup_app_l_Some. }
    rewrite lookup_enumerate in Hk'.
    destruct (xs !! k) as [z|] eqn:E; [|done].
    injection Hk' as <- ->. apply lookup_lt_Some in Hk. split; [lia|done].
  - intros [Hlt Hj]. apply list_elem_of_lookup. exists j.
    assert (enumerate xs !! j = Some (j, y)) as Hj'.
    { by rewrite lookup_enumerate, Hj. }
    rewrite Hsplit, lookup_app_l in Hj' by lia. done.
Qed.

Section PassBehaviour.
Context {Tensor : Type}.
Implicit Types (d source : gmap string Tensor) (items : list (nat * Z)).
Implicit Types (moe_layer_freq : list Z).

Lemma modify_layers_app items1 items2 d :
  modify_layers (items1 ++ items2) d
  = modify_layers items1 d ≫= modify_layers items2.
Proof.
  revert d. induction items1 as [|[j u] items1 IH]; intros d; [done|].
  simpl app. rewrite !modify_layers_cons.
  destruct (modify_layer j u d) as [e|d1]; [done|]. apply IH.
Qed.

Lemma modify_layer_raise_inv layer_i use_moe d e :
  modify_layer layer_i use_moe d = raise e ->
  use_moe = 0%Z /\ d !! post_attention_key layer_i = None /\
  e = KeyError (post_attention_key layer_i).
Proof.
  destruct (decide (use_moe = 0%Z)) as [->|Hne].
  - destruct (d !! post_attention_key layer_i) as [w|] eqn:E.
    + rewrite (modify_layer_dense _ _ _ E). discriminate.
    + rewrite (modify_layer_missing _ _ E). by intros [= <-].
  - rewrite modify_layer_moe by done. discriminate.
Qed.

(** A failing run stopped at a dense-tagged item whose key was missing
    when its turn came. *)
Lemma modify_layers_raise_inv items d e :
  modify_layers items d = raise e ->
  exists pre i post d1,
    items = (pre ++ (i, 0%Z) :: post)%list /\
    modify_layers pre d = ok d1 /\
    d1 !! post_attention_key i = None /\
    e = KeyError (post_attention_key i).
Proof.
  revert d. induction items as [|[j u] items IH]; intros d; [discriminate|].
  rewrite modify_layers_cons.
  destruct (modify_layer j u d) as [e'|d1] eqn:Hstep.
  - intros [= <-]. apply modify_layer_raise_inv in Hstep as (-> & Hd & ->).
    by exists [], j, items, d.
  - intros (pre & i & post & d2 & -> & Hpre & Hd2 & ->)%IH.
    exists ((j, u) :: pre), i, post, d2. split_and!; try done.
    simpl app. rewrite modify_layers_cons, Hstep. exact Hpre.
Qed.

Lemma modify_layers_no_dense items d :
  Forall (fun item => item.2 <> 0%Z) items -> modify_layers items d = ok d.
Proof.
  induction 1 as [|[j u] items Hu _ IH]; [done|].
  rewrite modify_layers_cons, modify_layer_moe by done. exact IH.
Qed.

Lemma modify_layer_normalise layer_i use_moe d :
  modify_layer layer_i (normalise_tag use_moe) d = modify_layer layer_i use_moe d.
Proof.
  unfold modify_layer, normalise_tag. by destruct (use_moe =? 0)%Z.
Qed.

Lemma rename_key_size d old new weight :
  d !! old = Some weight ->
  size (<[new := weight]> (delete old d)) <= size d.
Proof.
  intros Hold.
  assert (size d = S (size (delete old d))) as ->.
  { rewrite <- (insert_delete_id d old weight Hold) at 1.
    apply map_size_insert_None, lookup_delete_eq. }
  rewrite map_size_insert. destruct (delete old d !! new); simpl; lia.
Qed.

Lemma modify_layers_size items d d' :
  modify_layers items d = ok d' -> size d' <= size d.
Proof.
  revert d. induction items as [|[j u] items IH]; intros d Hrun.
  - by injection Hrun as <-.
  - apply modify_layers_cons_inv in Hrun as (d1 & Hstep & Hrest).
    apply IH in Hrest.
    apply modify_layer_ok_inv in Hstep as [[_ ->]|(_ & w & Hw & ->)]; [done|].
    pose proof (rename_key_size d (post_attention_key j)
                  (dense_post_attention_key j) w Hw). lia.
Qed.

Lemma modify_layers_values_from_source items d d' key v :
  modify_layers items d = ok d' -> d' !! key = Some v ->
  exists key', d !! key' = Some v.
Proof.
  revert d. induction items as [|[j u] items IH]; intros d Hrun Hv.
  - injection Hrun as <-. eauto.
  - apply modify_layers_cons_inv in Hrun as (d1 & Hstep & Hrest).
    destruct (IH d1 Hrest Hv) as [key1 Hkey1].
    apply modify_layer_ok_inv in Hstep as [[_ ->]|(_ & w & Hw & ->)]; [eauto|].
    apply lookup_insert_Some in Hkey1 as [[_ <-]|[_ Hkey1]]; [eauto|].
    apply lookup_delete_Some in Hkey1 as [_ Hkey1]. eauto.
Qed.

End PassBehaviour.

Section PassProperties.
Context {Tensor : Type}.
Implicit Types (source : gmap string Tensor) (moe_layer_freq : list Z).

(** X1.  When the pass returns, the key set of its result is the key set
    of the input without the original layernorm keys of the dense-tagged
    layers, together with their [dense-] keys. *)
Theorem modify_source_state_key_set moe_layer_freq source st :
  _modify_source_state moe_layer_freq source = ok st ->
  dom (state_dict st)
  = (dom source
       ∖ list_to_set (post_attention_key <$> dense_layers moe_layer_freq))
    ∪ list_to_set (dense_post_attention_key <$> dense_layers moe_layer_freq)
    :> gset string.
Proof.
  intros Hrun. unfold _modify_source_state in Hrun.
  destruct (modify_layers (enumerate moe_layer_freq) source)
    as [e|d'] eqn:Hloop; [discriminate|].
  injection Hrun as <-. simpl.
  apply set_eq. intros key.
  rewrite elem_of_union, elem_of_difference, !elem_of_dom, !elem_of_list_to_set.
  destruct (decide (key ∈ dense_post_attention_key <$> dense_layers moe_layer_freq))
    as [Hd|Hd].
  - split; [by right|]. intros _.
    apply list_elem_of_fmap in Hd as (i & -> & Hi%elem_of_dense_layers).
    destruct (modify_layers_dense _ _ _ i (NoDup_enumerate _) Hloop)
      as (_ & -> & Hsome); [by apply elem_of_enumerate|done].
  - destruct (decide (key ∈ post_attention_key <$> dense_layers moe_layer_freq))
      as [Hp|Hp].
    + apply list_elem_of_fmap in Hp as Hp'.
      destruct Hp' as (i & -> & Hi%elem_of_dense_layers).
      destruct (modify_layers_dense _ _ _ i (NoDup_enumerate _) Hloop)
        as (-> & _ & _); [by apply elem_of_enumerate|].
      split; [by intros [? ?]|]. intros [[_ ?]|?]; done.
    + rewrite (modify_layers_frame _ _ _ key Hloop).
      * split; [by left|]. by intros [[? _]|?].
      * intros i Hi%elem_of_enumerate%elem_of_dense_layers. split.
        -- intros ->. apply Hp, list_elem_of_fmap. eauto.
        -- intros ->. apply Hd, list_elem_of_fmap. eauto.
Qed.

(** X2.  The pass returns exactly when the original layernorm key of
    every dense-tagged layer is in the input. *)
Theorem modify_source_state_returns_iff moe_layer_freq source :
  (exists st, _modify_source_state moe_layer_freq source = ok st)
  <-> (forall i, moe_layer_freq !! i = Some 0%Z ->
         is_Some (source !! post_attention_key i)).
Proof.
  unfold _modify_source_state. split.
  - intros [st Hrun] i Hi.
    destruct (modify_layers (enumerate moe_layer_freq) source)
      as [e|d'] eqn:Hloop; [discriminate|].
    apply (modify_layers_dense _ _ _ i (NoDup_enumerate _) Hloop).
    by apply elem_of_enumerate.
  - intros Hpre.
    destruct (modify_layers_succeeds (enumerate moe_layer_freq) source)
      as [d' ->]; [apply NoDup_enumerate| |by eexists].
    intros i Hi. apply Hpre. by apply elem_of_enumerate.
Qed.

Lemma modify_layers_first_missing moe_layer_freq source i :
  moe_layer_freq !! i = Some 0%Z ->
  source !! post_attention_key i = None ->
  (forall j, j < i -> moe_layer_freq !! j = Some 0%Z ->
     is_Some (source !! post_attention_key j)) ->
  modify_layers (enumerate moe_layer_freq) source
  = raise (KeyError (post_attention_key i)).
Proof.
  intros Hi Hmissing Hbefore.
  destruct (enumerate_split moe_layer_freq i 0%Z Hi)
    as (pre & post & Hsplit & Hlen & Hpre).
  assert (NoDup pre.*1) as Hnd.
  { pose proof (NoDup_enumerate moe_layer_freq) as Hall.
    rewrite Hsplit, fmap_app in Hall. by apply NoDup_app in Hall as [? _]. }
  destruct (modify_layers_succeeds pre source Hnd) as [d1 Hd1].
  { intros j [Hj Hj0]%Hpre. by apply Hbefore. }
  assert (d1 !! post_attention_key i = None) as Hd1i.
  { rewrite (modify_layers_frame _ _ _ _ Hd1); [done|].
    intros j [Hj _]%Hpre. split.
    - intros ->%post_attention_key_inj. lia.
    - apply post_attention_key_ne_dense. }
  rewrite Hsplit, modify_layers_app, Hd1. simpl.
  rewrite modify_layer_missing by done. done.
Qed.

(** X3.  When layer [i] is the first dense-tagged layer whose original
    layernorm key is not in the input, the pass raises [KeyError] on that
    key. *)
Theorem modify_source_state_first_missing_key moe_layer_freq source i :
  moe_layer_freq !! i = Some 0%Z ->
  source !! post_attention_key i = None ->
  (forall j, j < i -> moe_layer_freq !! j = Some 0%Z ->
     is_Some (source !! post_attention_key j)) ->
  _modify_source_state moe_layer_freq source
  = raise (KeyError (post_attention_key i)).
Proof.
  intros Hi Hmissing Hbefore. unfold _modify_source_state.
  rewrite (modify_layers_first_missing _ _ i) by done.
  reflexivity.
Qed.

(** X4.  Once [self.config.moe_layer_freq] is a list of integers and
    [source.state_dict()] a dict, whatever the loop of the pass raises is
    a [KeyError] on the original layernorm key of a dense-tagged layer
    that is not in the dict, all earlier dense-tagged layers having their
    key.  What evaluating [self.config] itself may raise is not part of
    this statement. *)
Theorem modify_source_state_only_key_errors moe_layer_freq source e :
  _modify_source_state moe_layer_freq source = raise e ->
  exists i,
    e = KeyError (post_attention_key i) /\
    moe_layer_freq !! i = Some 0%Z /\
    source !! post_attention_key i = None /\
    (forall j, j < i -> moe_layer_freq !! j = Some 0%Z ->
       is_Some (source !! post_attention_key j)).
Proof.
  unfold _modify_source_state. intros Hrun.
  destruct (modify_layers (enumerate moe_layer_freq) source)
    as [e'|d'] eqn:Hloop; [|discriminate].
  injection Hrun as ->.
  apply modify_layers_raise_inv in Hloop
    as (pre & i & post & d1 & Hsplit & Hpre & Hd1 & ->).
  assert (moe_layer_freq !! i = Some 0%Z) as Hi.
  { apply elem_of_enumerate. rewrite Hsplit. apply elem_of_app. right. by left. }
  destruct (enumerate_split moe_layer_freq i 0%Z Hi)
    as (pre' & post' & Hsplit' & Hlen' & Hpre').
  assert (pre = pre') as <-.
  { assert (length pre = i) as Hlen.
    { assert (enumerate moe_layer_freq !! length pre = Some (i, 0%Z)) as Hat.
      { rewrite Hsplit. by apply list_lookup_middle. }
      rewrite lookup_enumerate in Hat.
      destruct (moe_layer_freq !! length pre); [|done]. by injection Hat. }
    rewrite Hsplit in Hsplit'.
    apply app_inj_1 in Hsplit' as [? _]; [done|lia]. }
  assert (NoDup pre.*1) as Hnd.
  { pose proof (NoDup_enumerate moe_layer_freq) as Hall.
    rewrite Hsplit, fmap_app in Hall. by apply NoDup_app in Hall as [? _]. }
  exists i. split_and!; [done|done| |].
  - rewrite <- Hd1. symmetry. apply (modify_layers_frame _ _ _ _ Hpre).
    intros j [Hj _]%Hpre'. split.
    + intros ->%post_attention_key_inj. lia.
    + apply post_attention_key_ne_dense.
  - intros j Hj Hj0.
    apply (modify_layers_dense _ _ _ j Hnd Hpre). by apply Hpre'.
Qed.

(** X5.  With no tag equal to 0 (an empty classification, or tags such as
    1, 2 or -1 only) the pass returns its input unchanged. *)
Theorem modify_source_state_no_dense_identity moe_layer_freq source :
  (forall use_moe, use_moe ∈ moe_layer_freq -> use_moe <> 0%Z) ->
  _modify_source_state moe_layer_freq source = ok (Build_ModelState source).
Proof.
  intros Hfreq. unfold _modify_source_state.
  rewrite modify_layers_no_dense; [done|].
  apply Forall_forall. intros [i u] Hin%elem_of_enumerate. simpl.
  apply Hfreq. by apply list_elem_of_lookup_2 in Hin.
Qed.

(** X6.  Only whether a tag equals 0 matters: replacing every non-zero
    tag by 1 gives the same outcome, error included. *)
Theorem modify_source_state_tag_zero_only moe_layer_freq source :
  _modify_source_state (normalise_tag <$> moe_layer_freq) source
  = _modify_source_state moe_layer_freq source.
Proof.
  unfold _modify_source_state. f_equal.
  assert (forall (indices : list nat) (d : gmap string Tensor),
            modify_layers (zip indices (normalise_tag <$> moe_layer_freq)) d
            = modify_layers (zip indices moe_layer_freq) d) as Hzip.
  { induction moe_layer_freq as [|u tags IH]; intros [|j indices] d; try done.
    simpl zip. rewrite !modify_layers_cons, modify_layer_normalise.
    destruct (modify_layer j u d); [done|]. apply IH. }
  unfold enumerate. rewrite length_fmap. apply Hzip.
Qed.

(** X7.  The pass adds no entry and no tensor: when it returns, the
    result has at most as many entries as the input, and every tensor in
    it is a tensor of the input. *)
Theorem modify_source_state_no_new_tensors moe_layer_freq source st :
  _modify_source_state moe_layer_freq source = ok st ->
  size (state_dict st) <= size source /\
  (forall key tensor,
     state_dict st !! key = Some tensor ->
     exists key', source !! key' = Some tensor).
Proof.
  intros Hrun. unfold _modify_source_state in Hrun.
  destruct (modify_layers (enumerate moe_layer_freq) source)
    as [e|d'] eqn:Hloop; [discriminate|].
  injection Hrun as <-. simpl. split.
  - by apply (modify_layers_size (enumerate moe_layer_freq)).
  - intros key tensor.
    by apply (modify_layers_values_from_source (enumerate moe_layer_freq)).
Qed.

End PassProperties.

(** X8.  The keys built for the layers never collide: different layers
    get different original keys and different [dense-] keys, and no
    [dense-] key is the original key of any layer. *)
Theorem layer_keys_never_collide (i j : nat) :
  (post_attention_key i = post_attention_key j -> i = j) /\
  (dense_post_attention_key i = dense_post_attention_key j -> i = j) /\
  post_attention_key i <> dense_post_attention_key j.
Proof.
  split_and!.
  - apply post_attention_key_inj.
  - apply dense_post_attention_key_inj.
  - apply post_attention_key_ne_dense.
Qed.

Lemma modify_source_state_key_set_witness :
  dom two_layer_state_modified
  = (dom two_layer_state
       ∖ list_to_set (post_attention_key <$> dense_layers [0%Z; 1%Z]))
    ∪ list_to_set (dense_post_attention_key <$> dense_layers [0%Z; 1%Z])
    :> gset string.
Proof.
  apply (modify_source_state_key_set [0%Z; 1%Z] two_layer_state
           (Build_ModelState two_layer_state_modified)).
  vm_compute. reflexivity.
Defined.

Lemma modify_source_state_first_missing_key_witness :
  _modify_source_state [0%Z; 0%Z] missing_second_state
  = raise (KeyError (post_attention_key 1)).
Proof.
  apply (modify_source_state_first_missing_key [0%Z; 0%Z] missing_second_state 1).
  - reflexivity.
  - vm_compute. reflexivity.
  - intros [|j] Hj _; [|lia]. exists 10%Z. vm_compute. reflexivity.
Defined.

Lemma modify_source_state_only_key_errors_witness :
  exists i,
    KeyError (post_attention_key 1) = KeyError (post_attention_key i) /\
    [0%Z; 0%Z] !! i = Some 0%Z /\
    missing_second_state !! post_attention_key i = None /\
    (forall j, j < i -> [0%Z; 0%Z] !! j = Some 0%Z ->
       is_Some (missing_second_state !! post_attention_key j)).
Proof.
  apply (modify_source_state_only_key_errors [0%Z; 0%Z] missing_second_state).
  vm_compute. reflexivity.
Defined.

Lemma modify_source_state_no_dense_identity_witness :
  _modify_source_state [1%Z; 2%Z] two_layer_state
  = ok (Build_ModelState two_layer_state).
Proof.
  apply (modify_source_state_no_dense_identity [1%Z; 2%Z] two_layer_state).
  intros use_moe Hin ->.
  apply elem_of_cons in Hin as [Hin|Hin]; [discriminate|].
  apply elem_of_cons in Hin as [Hin|Hin]; [discriminate|].
  by apply elem_of_nil in Hin.
Defined.

Lemma modify_source_state_no_new_tensors_witness :
  size two_layer_state_modified <= size two_layer_state /\
  (forall key tensor,
     two_layer_state_modified !! key = Some tensor ->
     exists key', two_layer_state !! key' = Some tensor).
Proof.
  apply (modify_source_state_no_new_tensors [0%Z; 1%Z] two_layer_state
           (Build_ModelState two_layer_state_modified)).
  vm_compute. reflexivity.
Defined.

(** ** More on the configuration *)

(** X9.  Whatever the two integers are, the classification has its 0
    tags exactly at the indices below [first_k_dense_replace] and its 1
    tags right after them, and its length is [num_hidden_layers] exactly
    when [0 <= first_k_dense_replace <= num_hidden_layers]. *)
Theorem config_moe_layer_freq_layout (source : HFConfig) :
  (forall i : nat,
     config_moe_layer_freq source !! i = Some 0%Z
     <-> (Z.of_nat i < first_k_dense_replace source)%Z) /\
  (forall i : nat,
     config_moe_layer_freq source !! i = Some 1%Z
     <-> (0 <= first_k_dense_replace source <= Z.of_nat i
          /\ Z.of_nat i < num_hidden_layers source)%Z
         \/ (first_k_dense_replace source < 0
             /\ Z.of_nat i
                < num_hidden_layers source - first_k_dense_replace source)%Z) /\
  (forall tag, tag ∈ config_moe_layer_freq source -> tag = 0%Z \/ tag = 1%Z) /\
  (Z.of_nat (length (config_moe_layer_freq source)) = num_hidden_layers source
   <-> (0 <= first_k_dense_replace source <= num_hidden_layers source)%Z).
Proof.
  unfold config_moe_layer_freq. rewrite !list_mul_singleton.
  set (k := first_k_dense_replace source).
  set (n := num_hidden_layers source).
  split_and!.
  - intros i. destruct (dense_then_moe_lookup (Z.to_nat k) (Z.to_nat (n - k)) i)
      as [-> _]. lia.
  - intros i. destruct (dense_then_moe_lookup (Z.to_nat k) (Z.to_nat (n - k)) i)
      as [_ ->]. lia.
  - intros tag [Hin|Hin]%elem_of_app.
    + apply elem_of_replicate in Hin as [-> _]. by left.
    + apply elem_of_replicate in Hin as [-> _]. by right.
  - rewrite length_app, !length_replicate. lia.
Qed.

Lemma clamp_topk_limited_devices_frame (self : DeepSeekConfig) :
  num_layers (clamp_topk_limited_devices self) = num_layers self /\
  moe_layer_freq (clamp_topk_limited_devices self) = moe_layer_freq self /\
  moe_router_score_function (clamp_topk_limited_devices self)
  = moe_router_score_function self /\
  moe_router_enable_expert_bias (clamp_topk_limited_devices self)
  = moe_router_enable_expert_bias self /\
  make_vocab_size_divisible_by (clamp_topk_limited_devices self)
  = make_vocab_size_divisible_by self.
Proof.
  unfold clamp_topk_limited_devices.
  by destruct self as [? ? [limited|] ? ? ? ?].
Qed.

(** X10.  The clamp of [__post_init__] changes no other field, running it
    again changes nothing more, and it changes the object at all only
    when [moe_router_topk_limited_devices] exceeds
    [expert_model_parallel_size]. *)
Theorem clamp_topk_limited_devices_idempotent (self : DeepSeekConfig) :
  clamp_topk_limited_devices (clamp_topk_limited_devices self)
  = clamp_topk_limited_devices self /\
  set_moe_router_topk_limited_devices (moe_router_topk_limited_devices self)
    (clamp_topk_limited_devices self) = self /\
  (clamp_topk_limited_devices self = self
   <-> forall limited, moe_router_topk_limited_devices self = Some limited ->
         (limited <= expert_model_parallel_size self)%Z).
Proof.
  destruct self as [nl freq [limited|] ep sf eb mv];
    unfold clamp_topk_limited_devices, set_moe_router_topk_limited_devices;
    simpl.
  - split_and!.
    + by rewrite <- Z.min_assoc, Z.min_id.
    + done.
    + split.
      * intros [= Hmin] ? [= <-]. lia.
      * intros Hle. specialize (Hle limited eq_refl).
        by rewrite Z.min_l.
  - split_and!; [done|done|]. split; [by intros _ ? [=]|done].
Qed.

Lemma config_moe_layer_freq_dense_iff (source : HFConfig) (i : nat) :
  config_moe_layer_freq source !! i = Some 0%Z
  <-> (Z.of_nat i < first_k_dense_replace source)%Z.
Proof.
  unfold config_moe_layer_freq. rewrite !list_mul_singleton.
  destruct (dense_then_moe_lookup
              (Z.to_nat (first_k_dense_replace source))
              (Z.to_nat (num_hidden_layers source - first_k_dense_replace source))
              i) as [-> _].
  lia.
Qed.

Section ConfigProperties.
Variable super_post_init : DeepSeekConfig -> result DeepSeekConfig.

(** X11.  When the parent classes' [__post_init__] leaves
    [moe_router_enable_expert_bias] alone: for a Hugging Face config whose
    [scoring_func] is ["sigmoid"] the mapping built from the importer's
    config has the expert-bias entry, and for any other [scoring_func] the
    mapping is the one the inherited default gives. *)
Theorem config_decides_expert_bias_entry
    (base : DeepSeekConfig) (source : HFConfig) (cfg : DeepSeekConfig) :
  (forall c c', super_post_init c = ok c' ->
     moe_router_enable_expert_bias c' = moe_router_enable_expert_bias c) ->
  config super_post_init base source = ok cfg ->
  (scoring_func source = "sigmoid" ->
   convert_state_mapping cfg !! "model.layers.*.mlp.gate.e_score_correction_bias"
   = Some "decoder.layers.*.mlp.router.expert_bias") /\
  (scoring_func source <> "sigmoid" ->
   convert_state_mapping cfg = convert_state_mapping base).
Proof.
  intros Hframe Hrun. unfold config, __post_init__ in Hrun.
  apply Hframe in Hrun.
  destruct (clamp_topk_limited_devices_frame
              {| num_layers := num_hidden_layers source;
                 moe_layer_freq := config_moe_layer_freq source;
                 moe_router_topk_limited_devices := topk_group source;
                 expert_model_parallel_size := expert_model_parallel_size base;
                 moe_router_score_function :=
                   if String.eqb (scoring_func source) "sigmoid"
                   then "sigmoid" else moe_router_score_function base;
                 moe_router_enable_expert_bias :=
                   if String.eqb (scoring_func source) "sigmoid"
                   then Some true else moe_router_enable_expert_bias base;
                 make_vocab_size_divisible_by :=
                   if String.eqb (scoring_func source) "sigmoid"
                   then 1280%Z else 3200%Z |})
    as (_ & _ & _ & Hbias & _).
  rewrite Hbias in Hrun. simpl in Hrun.
  unfold convert_state_mapping, expert_bias_enabled. rewrite Hrun.
  split.
  - intros Hs. apply String.eqb_eq in Hs. rewrite Hs. vm_compute. reflexivity.
  - intros Hs. apply String.eqb_neq in Hs. rewrite Hs. reflexivity.
Qed.

(** X12.  The first two steps of [apply] together, when the parent
    classes' [__post_init__] leaves [moe_layer_freq] alone: if the state
    dict has the original layernorm key of every layer below
    [first_k_dense_replace], the pass driven by the importer's config
    returns; it moves exactly those layers' tensors to their [dense-] keys
    and leaves both keys of every other layer as they were. *)
Theorem config_drives_disambiguation {Tensor : Type}
    (base : DeepSeekConfig) (source : HFConfig) (cfg : DeepSeekConfig)
    (state : gmap string Tensor) :
  (forall c c', super_post_init c = ok c' ->
     moe_layer_freq c' = moe_layer_freq c) ->
  config super_post_init base source = ok cfg ->
  (forall i : nat, (Z.of_nat i < first_k_dense_replace source)%Z ->
     is_Some (state !! post_attention_key i)) ->
  exists st,
    _modify_source_state (moe_layer_freq cfg) state = ok st /\
    (forall i : nat, (Z.of_nat i < first_k_dense_replace source)%Z ->
       state_dict st !! post_attention_key i = None /\
       state_dict st !! dense_post_attention_key i
       = state !! post_attention_key i) /\
    (forall i : nat, (first_k_dense_replace source <= Z.of_nat i)%Z ->
       state_dict st !! post_attention_key i = state !! post_attention_key i /\
       state_dict st !! dense_post_attention_key i
       = state !! dense_post_attention_key i).
Proof.
  intros Hframe Hrun Hkeys.
  rewrite (config_passes_moe_layer_freq _ _ _ _ Hframe Hrun).
  destruct (modify_layers_succeeds (enumerate (config_moe_layer_freq source)) state)
    as [d' Hloop].
  { apply NoDup_enumerate. }
  { intros i Hi%elem_of_enumerate%config_moe_layer_freq_dense_iff. by apply Hkeys. }
  exists (Build_ModelState d'). unfold _modify_source_state. rewrite Hloop.
  split_and!; [done| |]; simpl.
  - intros i Hi%config_moe_layer_freq_dense_iff%elem_of_enumerate.
    by destruct (modify_layers_dense _ _ _ i (NoDup_enumerate _) Hloop Hi)
      as (? & ? & _).
  - intros i Hi.
    assert (forall j, (j, 0%Z) ∈ enumerate (config_moe_layer_freq source) -> j <> i)
      as Hother.
    { intros j Hj%elem_of_enumerate%config_moe_layer_freq_dense_iff. lia. }
    split; apply (modify_layers_frame _ _ _ _ Hloop); intros j Hj;
      specialize (Hother j Hj); split.
    + by intros ?%post_attention_key_inj.
    + apply post_attention_key_ne_dense.
    + intros E. by apply (post_attention_key_ne_dense j i).
    + by intros ?%dense_post_attention_key_inj.
Qed.

End ConfigProperties.

Lemma config_decides_expert_bias_entry_witness :
  convert_state_mapping
    (clamp_topk_limited_devices
       (Build_DeepSeekConfig 61 (config_moe_layer_freq (Build_HFConfig 61 3 "sigmoid" (Some 4%Z)))
          (Some 4%Z) 1 "sigmoid" (Some true) 1280))
    !! "model.layers.*.mlp.gate.e_score_correction_bias"
  = Some "decoder.layers.*.mlp.router.expert_bias".
Proof.
  refine (proj1 (config_decides_expert_bias_entry ok
            (Build_DeepSeekConfig 60 [] None 1 "softmax" None 3200)
            (Build_HFConfig 61 3 "sigmoid" (Some 4%Z)) _ _ _) _).
  - intros c c' [= <-]. reflexivity.
  - reflexivity.
  - reflexivity.
Defined.

Lemma config_drives_disambiguation_witness :
  exists st,
    _modify_source_state [0%Z; 1%Z] two_layer_state = ok st /\
    (forall i : nat, (Z.of_nat i < 1)%Z ->
       state_dict st !! post_attention_key i = None /\
       state_dict st !! dense_post_attention_key i
       = two_layer_state !! post_attention_key i) /\
    (forall i : nat, (1 <= Z.of_nat i)%Z ->
       state_dict st !! post_attention_key i
       = two_layer_state !! post_attention_key i /\
       state_dict st !! dense_post_attention_key i
       = two_layer_state !! dense_post_attention_key i).
Proof.
  refine (config_drives_disambiguation ok
            (Build_DeepSeekConfig 60 [] None 1 "softmax" None 3200)
            (Build_HFConfig 2 1 "softmax" None)
            (clamp_topk_limited_devices
               (Build_DeepSeekConfig 2 [0%Z; 1%Z] None 1 "softmax" None 3200))
            two_layer_state _ _ _).
  - intros c c' [= <-]. reflexivity.
  - reflexivity.
  - intros [|i] Hi; [|cbn [first_k_dense_replace] in Hi; lia].
    exists 10%Z. vm_compute. reflexivity.
Defined.

(** ** More on the mapping table *)

Lemma dict_update_cons {V : Type} (d : gmap string V) kv items :
  dict_update d (kv :: items) = dict_update (<[kv.1 := kv.2]> d) items.
Proof. reflexivity. Qed.

Lemma dict_update_nil {V : Type} (d : gmap string V) : dict_update d [] = d.
Proof. reflexivity. Qed.

(** X13.  No entry of the dict display is lost: every listed pair is in
    the mapping whatever the config, the mapping has 17 entries, or 18
    with the expert-bias entry, and the config changes the mapping at no
    key other than the expert-bias pattern. *)
Theorem mapping_keeps_every_listed_entry (cfg : DeepSeekConfig) :
  (forall p t, (p, t) ∈ mapping_items ->
     convert_state_mapping cfg !! p = Some t) /\
  size (convert_state_mapping cfg)
  = (if expert_bias_enabled cfg then 18 else 17) /\
  (forall (cfg' : DeepSeekConfig) p,
     p <> "model.layers.*.mlp.gate.e_score_correction_bias" ->
     convert_state_mapping cfg !! p = convert_state_mapping cfg' !! p).
Proof.
  unfold convert_state_mapping. split_and!.
  - intros p t Hin. unfold mapping_items in Hin.
    destruct (expert_bias_enabled cfg);
      repeat (apply elem_of_cons in Hin as [[= -> ->]|Hin];
              [vm_compute; reflexivity|]);
      by apply elem_of_nil in Hin.
  - destruct (expert_bias_enabled cfg); vm_compute; reflexivity.
  - intros cfg' p Hp. unfold expert_bias_items.
    rewrite !dict_update_cons, !dict_update_nil. simpl fst. simpl snd.
    destruct (expert_bias_enabled cfg), (expert_bias_enabled cfg');
      rewrite ?lookup_insert_ne by done; reflexivity.
Qed.

(** ** The importer's [apply] *)

Section TracedFacts.
Context {E A B : Type}.

Lemma traced_bind_call_ok (e : E) (a : A) (k : A -> Traced E B) :
  call e (ok a) ≫= k = (e :: (k a).1, (k a).2).
Proof. reflexivity. Qed.

Lemma traced_bind_call_raise (e : E) (err : PyError) (k : A -> Traced E B) :
  call e (raise err) ≫= k = ([e], raise err).
Proof. reflexivity. Qed.

Lemma traced_bind_lift_ok (a : A) (k : A -> Traced E B) :
  lift (ok a) ≫= k = k a.
Proof. unfold mbind, traced_bind, lift. simpl. by destruct (k a). Qed.

Lemma traced_bind_lift_raise (err : PyError) (k : A -> Traced E B) :
  lift (raise err) ≫= k = ([], raise err).
Proof. reflexivity. Qed.

End TracedFacts.

Section ApplyProperties.
Import HFDeepSeekImporter.
Context {A Target Trainer : Type}.
Variable c : Collaborators A Target Trainer.

(** Every way [apply] can go, one case per call that may raise. *)
Lemma apply_cases (cfg : DeepSeekConfig) (output_path : string) :
  (exists e, from_pretrained c = raise e /\
     apply c cfg output_path = ([FromPretrained], raise e)) \/
  exists state, from_pretrained c = ok state /\
  ((exists e, _modify_source_state (moe_layer_freq cfg) state = raise e /\
      apply c cfg output_path = ([FromPretrained], raise e)) \/
   exists source, _modify_source_state (moe_layer_freq cfg) state = ok source /\
   ((exists e, init c cfg = raise e /\
       apply c cfg output_path = ([FromPretrained; Init], raise e)) \/
    exists target, init c cfg = ok target /\
    ((exists e, nemo_setup c target = raise e /\
        apply c cfg output_path = ([FromPretrained; Init; NemoSetup], raise e)) \/
     exists trainer, nemo_setup c target = ok trainer /\
     ((exists e, convert_state c cfg source target = raise e /\
         apply c cfg output_path
         = ([FromPretrained; Init; NemoSetup;
             ApplyTransforms source (convert_state_mapping cfg)], raise e)) \/
      exists target', convert_state c cfg source target = ok target' /\
      ((exists e, nemo_save c output_path trainer = raise e /\
          apply c cfg output_path
          = ([FromPretrained; Init; NemoSetup;
              ApplyTransforms source (convert_state_mapping cfg);
              NemoSave output_path], raise e)) \/
       nemo_save c output_path trainer = ok () /\
       ((exists e, teardown c trainer target = raise e /\
           apply c cfg output_path
           = ([FromPretrained; Init; NemoSetup;
               ApplyTransforms source (convert_state_mapping cfg);
               NemoSave output_path; LogInfo; Teardown], raise e)) \/
        teardown c trainer target = ok () /\
        apply c cfg output_path
        = ([FromPretrained; Init; NemoSetup;
            ApplyTransforms source (convert_state_mapping cfg);
            NemoSave output_path; LogInfo; Teardown], ok output_path))))))).
Proof.
  unfold apply.
  destruct (from_pretrained c) as [e|state]; [left; by exists e|].
  right. exists state. split; [done|]. rewrite traced_bind_call_ok.
  destruct (_modify_source_state (moe_layer_freq cfg) state) as [e|source];
    [left; by exists e|].
  right. exists source. split; [done|]. rewrite traced_bind_lift_ok.
  destruct (init c cfg) as [e|target]; [left; by exists e|].
  right. exists target. split; [done|]. rewrite traced_bind_call_ok.
  destruct (nemo_setup c target) as [e|trainer]; [left; by exists e|].
  right. exists trainer. split; [done|]. rewrite traced_bind_call_ok.
  destruct (convert_state c cfg source target) as [e|target'];
    [left; by exists e|].
  right. exists target'. split; [done|]. rewrite traced_bind_call_ok.
  destruct (nemo_save c output_path trainer) as [e|[]]; [left; by exists e|].
  right. split; [done|]. rewrite !traced_bind_call_ok.
  destruct (teardown c trainer target) as [e|[]]; [left; by exists e|].
  right. split; [done|]. reflexivity.
Qed.

End ApplyProperties.

Section ApplyTheorems.
Import HFDeepSeekImporter.
Context {A Target Trainer : Type}.
Variable c : Collaborators A Target Trainer.

(** X14.  When [apply] returns, it returns [output_path], and every call
    answered: the loaded state dict went through the pass, the target was
    created and set up, [io.apply_transforms] got the state the pass
    returned together with the mapping of the config, the result was saved
    under [output_path], and the teardown ran last. *)
Theorem apply_returns_output_path
    (cfg : DeepSeekConfig) (output_path returned : string) :
  (apply c cfg output_path).2 = ok returned ->
  returned = output_path /\
  exists state source target trainer target',
    from_pretrained c = ok state /\
    _modify_source_state (moe_layer_freq cfg) state = ok source /\
    init c cfg = ok target /\
    nemo_setup c target = ok trainer /\
    apply_transforms c source target (convert_state_mapping cfg)
      convert_state_transforms = ok target' /\
    nemo_save c output_path trainer = ok () /\
    teardown c trainer target = ok () /\
    (apply c cfg output_path).1
    = [FromPretrained; Init; NemoSetup;
       ApplyTransforms source (convert_state_mapping cfg);
       NemoSave output_path; LogInfo; Teardown].
Proof.
  intros Hret.
  destruct (apply_cases c cfg output_path)
    as [(e & _ & Hrun)|(state & Hstate &
       [(e & _ & Hrun)|(source & Hsource &
       [(e & _ & Hrun)|(target & Htarget &
       [(e & _ & Hrun)|(trainer & Htrainer &
       [(e & _ & Hrun)|(target' & Hconv &
       [(e & _ & Hrun)|(Hsave &
       [(e & _ & Hrun)|(Htear & Hrun)])])])])])])];
    rewrite Hrun in Hret; try discriminate Hret.
  injection Hret as <-. split; [done|].
  exists state, source, target, trainer, target'.
  rewrite Hrun. by split_and!.
Qed.

(** X15.  Nothing is saved before the conversion succeeded: a call of
    [nemo_save] is in the trace only if the model was loaded, the pass
    returned, the target was created and set up and [io.apply_transforms]
    returned; it is a call with [output_path], and the state handed to the
    conversion holds no original layernorm key of a dense-tagged layer. *)
Theorem apply_saves_only_after_conversion
    (cfg : DeepSeekConfig) (output_path saved_path : string) :
  NemoSave saved_path ∈ (apply c cfg output_path).1 ->
  saved_path = output_path /\
  exists state source target trainer target',
    from_pretrained c = ok state /\
    _modify_source_state (moe_layer_freq cfg) state = ok source /\
    init c cfg = ok target /\
    nemo_setup c target = ok trainer /\
    apply_transforms c source target (convert_state_mapping cfg)
      convert_state_transforms = ok target' /\
    (forall i, moe_layer_freq cfg !! i = Some 0%Z ->
       state_dict source !! post_attention_key i = None).
Proof.
  intros Hin.
  assert (forall (state : gmap string (list A)) (source : _ModelState (list A)),
            _modify_source_state (moe_layer_freq cfg) state = ok source ->
            forall i, moe_layer_freq cfg !! i = Some 0%Z ->
              state_dict source !! post_attention_key i = None) as Hgone.
  { intros state source Hrun i Hi. unfold _modify_source_state in Hrun.
    destruct (modify_layers (enumerate (moe_layer_freq cfg)) state)
      as [e|d'] eqn:Hloop; [discriminate|].
    injection Hrun as <-. simpl.
    apply (modify_layers_dense _ _ _ i (NoDup_enumerate _) Hloop).
    by apply elem_of_enumerate. }
  destruct (apply_cases c cfg output_path)
    as [(e & _ & Hrun)|(state & Hstate &
       [(e & _ & Hrun)|(source & Hsource &
       [(e & _ & Hrun)|(target & Htarget &
       [(e & _ & Hrun)|(trainer & Htrainer &
       [(e & _ & Hrun)|(target' & Hconv &
       [(e & _ & Hrun)|(Hsave &
       [(e & _ & Hrun)|(Htear & Hrun)])])])])])])];
    rewrite Hrun in Hin; simpl in Hin;
    repeat (apply elem_of_cons in Hin as [Hin|Hin]; [try discriminate Hin|]);
    try (by apply elem_of_nil in Hin);
    (injection Hin as ->; split; [done|];
     exists state, source, target, trainer, target';
     split_and!; try done; by apply (Hgone state)).
Qed.

(** X16.  When the loaded model lacks the original layernorm key of a
    dense-tagged layer, [apply] raises [KeyError] on the key of the first
    such layer, and [from_pretrained] is the only call it made: no target
    is created and nothing is converted or saved. *)
Theorem apply_stops_at_missing_key
    (cfg : DeepSeekConfig) (output_path : string) state i :
  from_pretrained c = ok state ->
  moe_layer_freq cfg !! i = Some 0%Z ->
  state !! post_attention_key i = None ->
  (forall j, j < i -> moe_layer_freq cfg !! j = Some 0%Z ->
     is_Some (state !! post_attention_key j)) ->
  apply c cfg output_path
  = ([FromPretrained], raise (KeyError (post_attention_key i))).
Proof.
  intros Hstate Hi Hmissing Hbefore. unfold apply.
  rewrite Hstate, traced_bind_call_ok.
  unfold _modify_source_state.
  rewrite (modify_layers_first_missing _ _ i) by done.
  reflexivity.
Qed.

End ApplyTheorems.

Lemma apply_returns_output_path_witness :
  exists state source target trainer target',
    HFDeepSeekImporter.from_pretrained answering = ok state /\
    _modify_source_state (moe_layer_freq one_dense_layer_config) state
    = ok source /\
    HFDeepSeekImporter.init answering one_dense_layer_config = ok target /\
    HFDeepSeekImporter.nemo_setup answering target = ok trainer /\
    HFDeepSeekImporter.apply_transforms answering source target
      (convert_state_mapping one_dense_layer_config) convert_state_transforms
    = ok target' /\
    HFDeepSeekImporter.nemo_save answering "out.nemo" trainer = ok () /\
    HFDeepSeekImporter.teardown answering trainer target = ok () /\
    (HFDeepSeekImporter.apply answering one_dense_layer_config "out.nemo").1
    = [HFDeepSeekImporter.FromPretrained; HFDeepSeekImporter.Init;
       HFDeepSeekImporter.NemoSetup;
       HFDeepSeekImporter.ApplyTransforms source
         (convert_state_mapping one_dense_layer_config);
       HFDeepSeekImporter.NemoSave "out.nemo"; HFDeepSeekImporter.LogInfo;
       HFDeepSeekImporter.Teardown].
Proof.
  apply (apply_returns_output_path answering one_dense_layer_config
           "out.nemo" "out.nemo").
  vm_compute. reflexivity.
Defined.

Lemma apply_saves_only_after_conversion_witness :
  "out.nemo" = "out.nemo" /\
  exists state source target trainer target',
    HFDeepSeekImporter.from_pretrained answering = ok state /\
    _modify_source_state (moe_layer_freq one_dense_layer_config) state
    = ok source /\
    HFDeepSeekImporter.init answering one_dense_layer_config = ok target /\
    HFDeepSeekImporter.nemo_setup answering target = ok trainer /\
    HFDeepSeekImporter.apply_transforms answering source target
      (convert_state_mapping one_dense_layer_config) convert_state_transforms
    = ok target' /\
    (forall i, moe_layer_freq one_dense_layer_config !! i = Some 0%Z ->
       state_dict source !! post_attention_key i = None).
Proof.
  apply (apply_saves_only_after_conversion answering one_dense_layer_config
           "out.nemo" "out.nemo").
  vm_compute. do 4 right. left.
Defined.

Lemma apply_stops_at_missing_key_witness :
  HFDeepSeekImporter.apply answering_without_key one_dense_layer_config "out.nemo"
  = ([HFDeepSeekImporter.FromPretrained],
     raise (KeyError (post_attention_key 0))).
Proof.
  apply (apply_stops_at_missing_key answering_without_key
           one_dense_layer_config "out.nemo" ∅ 0).
  - reflexivity.
  - reflexivity.
  - reflexivity.
  - intros j Hj. lia.
Defined.

(** ** The pass and the table agree on the keys *)

(** X17.  The keys the pass works with are spelled as the table expects:
    the [dense-] key of layer [i] is the table's dense layernorm pattern
    with the wildcard replaced by [i], and the original key is the other
    layernorm pattern with the wildcard replaced by [i].  So after the
    pass the layernorm tensor of a dense-tagged layer is found under the
    pattern the table sends to [linear_fc1.layer_norm_weight] and not
    under the other one, and that of a layer tagged 1 under the pattern
    the table sends to [pre_mlp_layernorm.weight]. *)
Theorem pass_keys_instantiate_table_patterns {Tensor : Type}
    (cfg : DeepSeekConfig) (moe_layer_freq : list Z)
    (source : gmap string Tensor) st :
  _modify_source_state moe_layer_freq source = ok st ->
  (convert_state_mapping cfg
     !! "model.layers.*.dense-post_attention_layernorm.weight"
   = Some "decoder.layers.*.mlp.linear_fc1.layer_norm_weight" /\
   convert_state_mapping cfg !! "model.layers.*.post_attention_layernorm.weight"
   = Some "decoder.layers.*.pre_mlp_layernorm.weight") /\
  (forall i, moe_layer_freq !! i = Some 0%Z ->
     is_Some (state_dict st
                !! replace_star
                     "model.layers.*.dense-post_attention_layernorm.weight"
                     (PyStr.str_of_nat i)) /\
     state_dict st
       !! replace_star "model.layers.*.dense-post_attention_layernorm.weight"
            (PyStr.str_of_nat i)
     = source !! post_attention_key i /\
     state_dict st
       !! replace_star "model.layers.*.post_attention_layernorm.weight"
            (PyStr.str_of_nat i)
     = None) /\
  (forall i, moe_layer_freq !! i = Some 1%Z ->
     state_dict st
       !! replace_star "model.layers.*.post_attention_layernorm.weight"
            (PyStr.str_of_nat i)
     = source !! post_attention_key i).
Proof.
  intros Hrun.
  assert (forall i,
            replace_star "model.layers.*.dense-post_attention_layernorm.weight"
              (PyStr.str_of_nat i) = dense_post_attention_key i) as Hdense.
  { intros i. vm_compute. reflexivity. }
  assert (forall i,
            replace_star "model.layers.*.post_attention_layernorm.weight"
              (PyStr.str_of_nat i) = post_attention_key i) as Horig.
  { intros i. vm_compute. reflexivity. }
  unfold _modify_source_state in Hrun.
  destruct (modify_layers (enumerate moe_layer_freq) source)
    as [e|d'] eqn:Hloop; [discriminate|].
  injection Hrun as <-. cbn [state_dict]. split_and!.
  - apply mapping_has_layernorm_entries.
  - apply mapping_has_layernorm_entries.
  - intros i Hi%elem_of_enumerate. rewrite Hdense, Horig.
    destruct (modify_layers_dense _ _ _ i (NoDup_enumerate _) Hloop Hi)
      as (Hgone & Hmoved & Hsome).
    rewrite Hmoved. done.
  - intros i Hi. rewrite Horig.
    apply (modify_layers_frame _ _ _ _ Hloop).
    intros j Hj%elem_of_enumerate. split.
    + intros ->%post_attention_key_inj. congruence.
    + apply post_attention_key_ne_dense.
Qed.

Lemma pass_keys_instantiate_table_patterns_witness :
  is_Some (two_layer_state_modified
             !! replace_star
                  "model.layers.*.dense-post_attention_layernorm.weight"
                  (PyStr.str_of_nat 0)) /\
  two_layer_state_modified
    !! replace_star "model.layers.*.post_attention_layernorm.weight"
         (PyStr.str_of_nat 1)
  = two_layer_state !! post_attention_key 1.
Proof.
  destruct (pass_keys_instantiate_table_patterns one_dense_layer_config
              [0%Z; 1%Z] two_layer_state
              (Build_ModelState two_layer_state_modified))
    as (_ & Hdense & Hmoe).
  - vm_compute. reflexivity.
  - split.
    + apply (Hdense 0). reflexivity.
    + apply (Hmoe 1). reflexivity.
Defined.

(** X18.  Whatever the config, no two rules of [convert_state] share a
    source pattern and no two share a target pattern, the transforms
    included. *)
Theorem rules_are_pairwise_distinct (cfg : DeepSeekConfig) :
  NoDup (rule_sources cfg) /\ NoDup (rule_targets cfg).
Proof.
  unfold rule_sources, rule_targets, convert_state_mapping.
  destruct (expert_bias_enabled cfg); split;
    refine (bool_decide_unpack _ _); vm_compute; exact I.
Qed.
